(** * DUY Energy: the energy accumulator of [app.js]

    A shallow embedding of the application logic of [src/app.js] and the
    properties its specification states about it.

    Conventions of the model.
    - Instants (the results of [Date.now()], the time value of a [Date]) are
      integers, milliseconds since the epoch: [Z].
    - Every other JavaScript number (power in watts, energy in kWh) is an
      exact rational, [Q], and [==] is equality of rationals; that settles
      what depends on the sign or on the formula of a number.  What depends
      on rounding is stated over [Doubles], the same integration in IEEE
      binary64 numbers.
    - A calendar date is the one the script takes, the first ten characters
      of [toISOString]: the date in UTC ([isoDay]).  The local date of the
      specification is [localDay].
    - [null] and [undefined] are [None] of an [option].
    - The mutable global [state], the [localStorage] item, the four metric
      cards of the page and the console make up an explicit [World] that
      every function of the script transforms.
    - What the host decides is an input: the readings of the clock and the
      answer of the network are arguments, the time zone, number formatting
      and the JSON codec are the methods of a [Host]. *)

From Stdlib Require Import ZArith QArith Qround Qabs String Ascii List Lia.
From Stdlib Require Import Floats Uint63.
From stdpp Require Import base option gmap strings list pretty.

#[local] Set Warnings "-register-all".
#[local] Open Scope Z_scope.

(** ** Host built-ins: [Date] *)

Module JSDate.

Definition msPerDay : Z := 86400000.
Definition msPerHour : Z := 3600000.
Definition msPerMinute : Z := 60000.
Definition msPerSecond : Z := 1000.

(** Calendar date (proleptic Gregorian, UTC) of a day number counted
    from 1970-01-01; March-based years of 400-year eras. *)
Definition civilFromDays (days : Z) : Z * Z * Z :=
  let z := days + 719468 in
  let era := z / 146097 in
  let doe := z - era * 146097 in
  let yoe := (doe - doe / 1460 + doe / 36524 - doe / 146096) / 365 in
  let doy := doe - (365 * yoe + yoe / 4 - yoe / 100) in
  let mp := (5 * doy + 2) / 153 in
  let d := doy - (153 * mp + 2) / 5 + 1 in
  let m := if mp <? 10 then mp + 3 else mp - 9 in
  let y := yoe + era * 400 + (if m <=? 2 then 1 else 0) in
  (y, m, d).

Definition digit (n : Z) : ascii := ascii_of_N (48 + Z.to_N n).

(** [width] decimal digits of [n], most significant first, in front of
    [acc]. *)
Fixpoint padStart (width : nat) (n : Z) (acc : string) : string :=
  match width with
  | O => acc
  | S w => padStart w (n / 10) (String (digit (n mod 10)) acc)
  end.

(** Years 0 to 9999 print with four digits, the others with a sign and
    six. *)
Definition yearString (y : Z) : string :=
  if (0 <=? y) && (y <=? 9999) then padStart 4 y ""
  else String (if y <? 0 then "-"%char else "+"%char) (padStart 6 (Z.abs y) "").

(** [new Date(t).toISOString()]: [YYYY-MM-DDTHH:mm:ss.sssZ], in UTC. *)
Definition toISOString (t : Z) : string :=
  let '(y, m, d) := civilFromDays (t / msPerDay) in
  let ms := t mod msPerDay in
  (yearString y ++ "-" ++ padStart 2 m "" ++ "-" ++ padStart 2 d ""
   ++ "T" ++ padStart 2 (ms / msPerHour) ""
   ++ ":" ++ padStart 2 (ms / msPerMinute mod 60) ""
   ++ ":" ++ padStart 2 (ms / msPerSecond mod 60) ""
   ++ "." ++ padStart 3 (ms mod 1000) "" ++ "Z")%string.

(** [str.slice(0, n)] *)
Definition slice0 (n : nat) (s : string) : string := String.substring 0 n s.

(** [new Date(t).getHours()] in a zone whose offset from UTC at the
    instant [t] is [LocalTZA t] milliseconds. *)
Definition getHours (LocalTZA : Z -> Z) (t : Z) : Z :=
  ((t + LocalTZA t) / msPerHour) mod 24.

End JSDate.

(** ** The accumulator state (app.js, lines 16-22) *)

Record State : Type := mkState {
  lastTimestamp : option Z;
  lastPower : Q;
  picoEnergy : Q;
  llanoEnergy : Q;
  day : option string
}.

Definition initialState : State :=
  {| lastTimestamp := None;
     lastPower := 0;
     picoEnergy := 0;
     llanoEnergy := 0;
     day := None |}.

(** ** JSON values, as [JSON.parse] and [response.json()] produce them *)

Inductive JValue : Type :=
  | JNull
  | JBool (b : bool)
  | JNum (q : Q)
  | JStr (s : string)
  | JArr (items : list JValue)
  | JObj (props : gmap string JValue).

(** [v.k] on a value that is not [null]; [None] is [undefined].  Only the
    names [data], [device_status], [meters], [power] and [day] are read,
    none of which an array, a string, a number or a boolean has. *)
Definition getProp (v : JValue) (k : string) : option JValue :=
  match v with
  | JObj props => props !! k
  | _ => None
  end.

(** [v?.k] *)
Definition optChain (v : option JValue) (k : string) : option JValue :=
  match v with
  | None | Some JNull => None
  | Some x => getProp x k
  end.

(** ToBoolean, as [if (v)], [v && ...] and [v || ...] apply it. *)
Definition truthy (v : option JValue) : bool :=
  match v with
  | None | Some JNull => false
  | Some (JBool b) => b
  | Some (JNum q) => negb (Qeq_bool q 0)
  | Some (JStr s) => negb (String.eqb s "")
  | Some (JArr _) | Some (JObj _) => true
  end.

(** [v === s] for a string [s] *)
Definition strictEqString (v : option JValue) (s : string) : bool :=
  match v with
  | Some (JStr s') => String.eqb s' s
  | _ => false
  end.

(** ** The world the script runs in *)

(** [localStorage]: a string-keyed store; one that denies access (storage
    disabled, quota exhausted) throws on every call. *)
Record Storage : Type := mkStorage {
  entries : gmap string string;
  denied : bool
}.

(** [None]: the call throws. *)
Definition getItem (st : Storage) (k : string) : option (option string) :=
  if denied st then None else Some (entries st !! k).

Definition setItem (st : Storage) (k v : string) : option Storage :=
  if denied st then None
  else Some {| entries := <[k := v]> (entries st); denied := false |}.

(** The [innerText] of the elements [total], [pico], [llano], [indice]. *)
Record Metrics : Type := mkMetrics {
  total_text : string;
  pico_text : string;
  llano_text : string;
  indice_text : string
}.

Inductive LogEntry : Type :=
  | ConsoleWarn (msg : string)
  | ConsoleError (msg : string).

(** [console] lists the entries newest first. *)
Record World : Type := mkWorld {
  state : State;
  localStorage : Storage;
  document : Metrics;
  console : list LogEntry
}.

Definition setState (s : State) (w : World) : World :=
  {| state := s; localStorage := localStorage w;
     document := document w; console := console w |}.

Definition log (e : LogEntry) (w : World) : World :=
  {| state := state w; localStorage := localStorage w;
     document := document w; console := e :: console w |}.

Definition storageKey : string := "duyEnergyData".

(** What the host provides besides the clock. *)
Class Host : Type := mkHost {
  (** offset of local time from UTC, in milliseconds, at an instant *)
  LocalTZA : Z -> Z;
  (** [x.toFixed(digits)] *)
  toFixed : Q -> nat -> string;
  (** [JSON.parse]; [None]: it throws *)
  JSON_parse : string -> option JValue;
  (** [JSON.stringify(state)] *)
  JSON_stringify : State -> string
}.

(** The outcome of [fetch(url)] followed by [response.json()]. *)
Inductive FetchOutcome : Type :=
  | FetchRejected
  | JsonRejected
  | JsonResolved (data : JValue).

(** Normal or abrupt completion of a block inside a [try]. *)
Inductive Completion (A : Type) : Type :=
  | Normal (a : A)
  | Throw.
Arguments Normal {A} a.
Arguments Throw {A}.

(** One call of [handleNewPowerMeasurement] with the two readings of the
    clock it takes: [now] is [Date.now()], [dateNow] the instant of the
    [new Date()] that follows it. *)
Record Sample : Type := mkSample {
  power : Q;
  now : Z;
  dateNow : Z
}.

(** One run of [getShellyStatus]: what the network answers, and the clock
    readings of the measurement it may hand over. *)
Record Poll : Type := mkPoll {
  outcome : FetchOutcome;
  poll_now : Z;
  poll_dateNow : Z
}.

(** ** The script *)

Section App.

Context {host : Host}.

(** [new Date().toISOString().slice(0, 10)] at the instant [t] *)
Definition isoDay (t : Z) : string :=
  JSDate.slice0 10 (JSDate.toISOString t).

(** *** loadState (lines 25-39) *)

(** The fields [Object.assign(state, parsed)] copies: a property that
    [parsed] lacks keeps the old value.  A value that is not of the type
    of its field is outside the model: [None]. *)
Definition assignNumber (old : Q) (v : option JValue) : option Q :=
  match v with
  | None => Some old
  | Some (JNum q) => Some q
  | Some _ => None
  end.

Definition assignTimestamp (old : option Z) (v : option JValue)
  : option (option Z) :=
  match v with
  | None => Some old
  | Some JNull => Some None
  | Some (JNum q) =>
      if Qeq_bool (inject_Z (Qfloor q)) q then Some (Some (Qfloor q))
      else None
  | Some _ => None
  end.

Definition assignDay (old : option string) (v : option JValue)
  : option (option string) :=
  match v with
  | None => Some old
  | Some JNull => Some None
  | Some (JStr d) => Some (Some d)
  | Some _ => None
  end.

Definition Object_assign (s : State) (parsed : JValue) : option State :=
  ts ← assignTimestamp (lastTimestamp s) (getProp parsed "lastTimestamp");
  lp ← assignNumber (lastPower s) (getProp parsed "lastPower");
  pe ← assignNumber (picoEnergy s) (getProp parsed "picoEnergy");
  le ← assignNumber (llanoEnergy s) (getProp parsed "llanoEnergy");
  d ← assignDay (day s) (getProp parsed "day");
  Some {| lastTimestamp := ts; lastPower := lp; picoEnergy := pe;
          llanoEnergy := le; day := d |}.

Definition loadWarning : LogEntry :=
  ConsoleWarn "No stored state or failed to parse localStorage:".

(** [dateNow] is the instant of the [new Date()] of line 31.  The result
    is [None] only where [Object_assign] is. *)
Definition loadState (dateNow : Z) (w : World) : option World :=
  match getItem (localStorage w) storageKey with
  | None => Some (log loadWarning w)
  | Some None => Some w
  | Some (Some stored) =>
      if String.eqb stored "" then Some w
      else
        match JSON_parse stored with
        | None => Some (log loadWarning w)
        | Some JNull => Some (log loadWarning w)
        | Some parsed =>
            let today := isoDay dateNow in
            if strictEqString (getProp parsed "day") today then
              s ← Object_assign (state w) parsed;
              Some (setState s w)
            else Some w
        end
  end.

(** *** saveState (lines 42-48) *)

Definition saveState (w : World) : World :=
  match setItem (localStorage w) storageKey (JSON_stringify (state w)) with
  | Some st =>
      {| state := state w; localStorage := st;
         document := document w; console := console w |}
  | None => log (ConsoleWarn "Failed to save state:") w
  end.

(** *** updateMetrics (lines 51-62) *)

(** The local [indice] of [updateMetrics]. *)
Definition indice (s : State) : Q :=
  let total := (picoEnergy s + llanoEnergy s)%Q in
  if Qlt_le_dec 0 total then ((llanoEnergy s / total) * 100)%Q else 0%Q.

Definition updateMetrics (w : World) : World :=
  let s := state w in
  let total := (picoEnergy s + llanoEnergy s)%Q in
  {| state := s; localStorage := localStorage w;
     document :=
       {| total_text := toFixed total 3 +:+ " kWh";
          pico_text := toFixed (picoEnergy s) 3 +:+ " kWh";
          llano_text := toFixed (llanoEnergy s) 3 +:+ " kWh";
          indice_text := toFixed (indice s) 1 +:+ " %" |};
     console := console w |}.

(** *** handleNewPowerMeasurement (lines 88-120) *)

(** [state.day && state.day !== today] *)
Definition newDayStarted (s : State) (today : string) : bool :=
  match day s with
  | None => false
  | Some d => negb (String.eqb d "") && negb (String.eqb d today)
  end.

(** Lines 91-97: reset the daily counters if a new day has started, then
    stamp the day. *)
Definition resetDaily (today : string) (s : State) : State :=
  let s1 :=
    if newDayStarted s today then
      {| lastTimestamp := None; lastPower := lastPower s;
         picoEnergy := 0; llanoEnergy := 0; day := day s |}
    else s in
  {| lastTimestamp := lastTimestamp s1; lastPower := lastPower s1;
     picoEnergy := picoEnergy s1; llanoEnergy := llanoEnergy s1;
     day := Some today |}.

(** Lines 100-105: the energy, in kWh, of the power [lastPower] (W) held
    from [t] to [now]. *)
Definition energyDelta (lastPower : Q) (t now : Z) : Q :=
  let elapsedMs := now - t in
  let elapsedHours := (inject_Z elapsedMs / (1000 * 60 * 60))%Q in
  ((lastPower * elapsedHours) / 1000)%Q.

(** Line 108: [hour >= 17 && hour < 21] *)
Definition isPeak (hour : Z) : bool := (17 <=? hour) && (hour <? 21).

(** Lines 99-113: integrate if there is a previous timestamp. *)
Definition integrate (now : Z) (s : State) : State :=
  match lastTimestamp s with
  | Some t =>
      let delta := energyDelta (lastPower s) t now in
      let hour := JSDate.getHours LocalTZA t in
      if isPeak hour then
        {| lastTimestamp := lastTimestamp s; lastPower := lastPower s;
           picoEnergy := (picoEnergy s + delta)%Q;
           llanoEnergy := llanoEnergy s; day := day s |}
      else
        {| lastTimestamp := lastTimestamp s; lastPower := lastPower s;
           picoEnergy := picoEnergy s;
           llanoEnergy := (llanoEnergy s + delta)%Q; day := day s |}
  | None => s
  end.

(** Lines 115-116: remember the latest measurement. *)
Definition remember (power : Q) (now : Z) (s : State) : State :=
  {| lastTimestamp := Some now; lastPower := power;
     picoEnergy := picoEnergy s; llanoEnergy := llanoEnergy s;
     day := day s |}.

(** What one call makes of [state]. *)
Definition nextState (smp : Sample) (s : State) : State :=
  let today := isoDay (dateNow smp) in
  remember (power smp) (now smp) (integrate (now smp) (resetDaily today s)).

Definition handleNewPowerMeasurement (smp : Sample) (w : World) : World :=
  updateMetrics (saveState (setState (nextState smp (state w)) w)).

(** *** getShellyStatus (lines 65-85) *)

(** Lines 75-80, on the parsed body [data]. *)
Definition readPower (data : JValue) : Completion JValue :=
  let meters :=
    optChain (optChain (optChain (Some data) "data") "device_status")
             "meters" in
  match meters with
  | Some (JArr (meter0 :: _)) =>
      match meter0 with
      | JNull => Throw
      | _ =>
          let p := getProp meter0 "power" in
          match p with
          | Some v => if truthy p then Normal v else Normal (JNum 0)
          | None => Normal (JNum 0)
          end
      end
  | _ => Normal (JNum 0)
  end.

Definition fetchError : LogEntry :=
  ConsoleError "Error fetching Shelly status:".

(** The result is [None] where the reading is a truthy value that is not
    a number: the script passes it on as it is, the model has no such
    power. *)
Definition getShellyStatus (p : Poll) (w : World) : option World :=
  match outcome p with
  | FetchRejected | JsonRejected => Some (log fetchError w)
  | JsonResolved data =>
      match readPower data with
      | Throw => Some (log fetchError w)
      | Normal (JNum watts) =>
          Some (handleNewPowerMeasurement
                  {| power := watts; now := poll_now p;
                     dateNow := poll_dateNow p |} w)
      | Normal _ => None
      end
  end.

(** *** init (lines 139-154): restore, render, then poll for ever *)

(** The polls, the immediate one and those of the timer, in the order in
    which their requests settle; each runs to completion before the next
    event. *)
Fixpoint polling (ps : list Poll) (w : World) : option World :=
  match ps with
  | [] => Some w
  | p :: rest => w' ← getShellyStatus p w; polling rest w'
  end.

(** The click handlers of the two buttons and the registration of the
    service worker touch none of the four parts of the [World]. *)
Definition init (dateNow : Z) (ps : list Poll) (w : World) : option World :=
  w1 ← loadState dateNow w;
  polling ps (updateMetrics w1).

(** A sequence of measurements handed to the accumulator. *)
Definition run (smps : list Sample) (s : State) : State :=
  fold_left (fun acc smp => nextState smp acc) smps s.

Definition handleAll (smps : list Sample) (w : World) : World :=
  fold_left (fun acc smp => handleNewPowerMeasurement smp acc) smps w.

End App.

(** ** Notions of the specification *)

(** The per-interval energy deltas of a sequence of measurements: each
    interval runs from one measurement to the next and carries the power
    reported at its start.  [prev] and [prevPower] are the timestamp and the
    power before the sequence, if any. *)
Fixpoint intervalDeltas (prev : option Z) (prevPower : Q)
    (smps : list Sample) : list Q :=
  match smps with
  | [] => []
  | smp :: rest =>
      let tail := intervalDeltas (Some (now smp)) (power smp) rest in
      match prev with
      | Some t => energyDelta prevPower t (now smp) :: tail
      | None => tail
      end
  end.

Fixpoint Qsum (l : list Q) : Q :=
  match l with
  | [] => 0%Q
  | x :: rest => (x + Qsum rest)%Q
  end.

(** The clock never runs backwards over a sequence of measurements. *)
Fixpoint clockMonotone (prev : option Z) (smps : list Sample) : Prop :=
  match smps with
  | [] => True
  | smp :: rest =>
      match prev with Some t => t <= now smp | None => True end
      /\ clockMonotone (Some (now smp)) rest
  end.

(** Totals and stored power are all non-negative: what one measurement
    hands to the next when the readings are. *)
Definition nonnegative (s : State) : Prop :=
  (0 <= picoEnergy s)%Q /\ (0 <= llanoEnergy s)%Q /\ (0 <= lastPower s)%Q.

(** A poll fails when control reaches the [catch] of [getShellyStatus]:
    the request is rejected, the body is not JSON, or reading the first
    meter throws. *)
Definition pollFails (p : Poll) : Prop :=
  match outcome p with
  | FetchRejected | JsonRejected => True
  | JsonResolved data => readPower data = Throw
  end.

(** Two worlds that differ at most in what the console shows. *)
Definition sameApp (w1 w2 : World) : Prop :=
  state w1 = state w2 /\ localStorage w1 = localStorage w2
  /\ document w1 = document w2.

(** ** A concrete host and concrete scenarios *)

Module Demo.

(** [toFixed] on exact rationals: half away from zero. *)
Definition toFixedExact (x : Q) (digits : nat) : string :=
  let scale := 10 ^ Z.of_nat digits in
  let n := Qfloor (Qabs x * inject_Z scale + (1 # 2))%Q in
  let frac :=
    match digits with
    | O => ""
    | _ => "." +:+ JSDate.padStart digits (n mod scale) ""
    end in
  (if Qlt_le_dec x 0 then "-" else "") +:+ pretty (n / scale) +:+ frac.

Definition staleSnapshot : JValue :=
  JObj (<["day" := JStr "2024-03-09"]>
        (<["picoEnergy" := JNum (3 # 2)]>
         (<["llanoEnergy" := JNum (4 # 1)]>
          (<["lastPower" := JNum (800 # 1)]>
           (<["lastTimestamp" := JNum (1710020000000 # 1)]> ∅))))).

Definition freshSnapshot : JValue :=
  JObj (<["day" := JStr "2024-03-10"]>
        (<["picoEnergy" := JNum (3 # 2)]>
         (<["llanoEnergy" := JNum (4 # 1)]>
          (<["lastPower" := JNum (800 # 1)]>
           (<["lastTimestamp" := JNum (1710028900000 # 1)]> ∅))))).

(** A stand-in for the JSON codec: the three texts below stand for
    documents and parse to the values given; every other text is
    malformed. *)
Definition parseTable (text : string) : option JValue :=
  if String.eqb text "stale" then Some staleSnapshot
  else if String.eqb text "fresh" then Some freshSnapshot
  else if String.eqb text "null" then Some JNull
  else None.

(** Montevideo: UTC-3 the whole year. *)
Definition montevideo : Host :=
  {| LocalTZA := fun _ => -10800000;
     toFixed := toFixedExact;
     JSON_parse := parseTable;
     JSON_stringify := fun _ => "fresh" |}.

Definition blank : Metrics :=
  {| total_text := ""; pico_text := ""; llano_text := "";
     indice_text := "" |}.

Definition storing (text : option string) : Storage :=
  {| entries :=
       match text with
       | Some t => <[storageKey := t]> ∅
       | None => ∅
       end;
     denied := false |}.

(** The world of a page that has just been opened. *)
Definition freshWorld (text : option string) : World :=
  {| state := initialState; localStorage := storing text;
     document := blank; console := [] |}.

Definition withState (s : State) : World :=
  {| state := s; localStorage := storing None;
     document := blank; console := [] |}.

(** 2024-03-10, 17:00 local time (20:00 UTC), 1000 W running. *)
Definition at1700 : State :=
  {| lastTimestamp := Some 1710100800000; lastPower := 1000;
     picoEnergy := 0; llanoEnergy := 0; day := Some "2024-03-10" |}.

(** Half an hour later. *)
Definition sample1730 : Sample :=
  {| power := 1500; now := 1710102600000; dateNow := 1710102600000 |}.

(** 2024-03-10, 21:30 local time (00:30 UTC of the 11th), 2000 W. *)
Definition at2130 : State :=
  {| lastTimestamp := Some 1710117000000; lastPower := 2000;
     picoEnergy := 2; llanoEnergy := 3; day := Some "2024-03-11" |}.

Definition sample2200 : Sample :=
  {| power := 100; now := 1710118800000; dateNow := 1710118800001 |}.

(** 23:50 UTC of 2024-03-09 (20:50 local time), with totals of that
    day. *)
Definition at2350 : State :=
  {| lastTimestamp := Some 1710028200000; lastPower := 600;
     picoEnergy := 5 # 2; llanoEnergy := 7; day := Some "2024-03-09" |}.

(** 00:10 UTC of 2024-03-10 (21:10 local time of the 9th). *)
Definition sample0010 : Sample :=
  {| power := 450; now := 1710029400000; dateNow := 1710029400000 |}.

(** No timestamp, but totals of an earlier day. *)
Definition staleNoTimestamp : State :=
  {| lastTimestamp := None; lastPower := 0;
     picoEnergy := 1; llanoEnergy := 2; day := Some "2024-03-09" |}.

(** A device that feeds energy back reports negative power. *)
Definition feedIn : list Sample :=
  [ {| power := -1000; now := 1710064800000; dateNow := 1710064800000 |};
    {| power := 0; now := 1710068400000; dateNow := 1710068400000 |} ].

(** The clock is set back by an hour between two measurements. *)
Definition clockSetBack : list Sample :=
  [ {| power := 1000; now := 1710068400000; dateNow := 1710068400000 |};
    {| power := 1000; now := 1710064800000; dateNow := 1710064800000 |} ].

(** Three measurements of one day, across the start of the peak window. *)
Definition afternoon : list Sample :=
  [ {| power := 1200; now := 1710099000000; dateNow := 1710099000000 |};
    {| power := 1000; now := 1710100800000; dateNow := 1710100800000 |};
    {| power := 300; now := 1710102600000; dateNow := 1710102600001 |} ].

Definition meterBody (watts : JValue) : JValue :=
  JObj {[ "data" :=
    JObj {[ "device_status" :=
      JObj {[ "meters" := JArr [ JObj {[ "power" := watts ]} ] ]} ]} ]}.

Definition pollAt (o : FetchOutcome) (t : Z) : Poll :=
  {| outcome := o; poll_now := t; poll_dateNow := t |}.

End Demo.

(** ** The rest of the script: configuration, request URLs, commands *)

(** [config.js]: the object [SHELLY_CONFIG]. *)
Record Config : Type := mkConfig {
  server : string;
  device_id : string;
  auth_key : string
}.

(** Characters [encodeURIComponent] leaves as they are: letters, digits and
    [- _ . ! ~ * ' ( )]. *)
Definition uriUnreserved (c : ascii) : bool :=
  let n := N_of_ascii c in
  ((65 <=? n) && (n <=? 90) || (97 <=? n) && (n <=? 122)
   || (48 <=? n) && (n <=? 57))%N
  || existsb (Ascii.eqb c)
       ["-"; "_"; "."; "!"; "~"; "*"; "'"; "("; ")"]%char.

Definition hexDigit (n : N) : ascii :=
  if (n <? 10)%N then ascii_of_N (48 + n) else ascii_of_N (55 + n).

(** The characters of an escape [%XX]. *)
Definition uriEscapeChar (c : ascii) : bool :=
  Ascii.eqb c "%"
  || existsb (Ascii.eqb c) (list_ascii_of_string "0123456789ABCDEF").

(** [encodeURIComponent(s)], a string being the sequence of its UTF-8
    bytes: every byte that is not unreserved becomes [%XX]. *)
Fixpoint encodeURIComponent (s : string) : string :=
  match s with
  | EmptyString => EmptyString
  | String c rest =>
      if uriUnreserved c then String c (encodeURIComponent rest)
      else
        String "%"
          (String (hexDigit (N_of_ascii c / 16))
             (String (hexDigit (N_of_ascii c mod 16))
                (encodeURIComponent rest)))
  end.

(** Line 69: the URL [getShellyStatus] fetches. *)
Definition statusUrl (cfg : Config) : string :=
  server cfg +:+ "/device/status?device_id="
  +:+ encodeURIComponent (device_id cfg)
  +:+ "&auth_key=" +:+ encodeURIComponent (auth_key cfg).

(** Line 124: the URL [controlShelly(turn)] fetches. *)
Definition controlUrl (cfg : Config) (turn : string) : string :=
  server cfg +:+ "/device/relay/control?device_id="
  +:+ encodeURIComponent (device_id cfg)
  +:+ "&auth_key=" +:+ encodeURIComponent (auth_key cfg)
  +:+ "&channel=0&turn=" +:+ encodeURIComponent turn.

(** The outcome of the [fetch] of a command: rejected, or answered with
    [response.ok]. *)
Inductive ControlOutcome : Type :=
  | ControlRejected
  | ControlResponded (ok : bool).

Definition controlError : LogEntry :=
  ConsoleError "Error sending control command:".

(** controlShelly (lines 123-136): the world after the command and the text
    of the [alert] it raises. *)
Definition controlShelly (turn : string) (o : ControlOutcome) (w : World)
  : World * string :=
  match o with
  | ControlResponded true =>
      (w, "Dispositivo "
          +:+ (if String.eqb turn "on" then "encendido" else "apagado"))
  | ControlResponded false => (w, "No se pudo enviar el comando.")
  | ControlRejected => (log controlError w, "Error al enviar el comando.")
  end.

(** What the page reacts to once [init] has run: a poll settles, or a
    button is clicked and its command settles. *)
Inductive Event : Type :=
  | Polled (p : Poll)
  | Commanded (turn : string) (o : ControlOutcome).

(** The events in the order in which they are handled; the alerts are
    listed newest first. *)
Fixpoint dispatch `{Host} (es : list Event) (w : World) (alerts : list string)
  : option (World * list string) :=
  match es with
  | [] => Some (w, alerts)
  | Polled p :: rest =>
      w' ← getShellyStatus p w; dispatch rest w' alerts
  | Commanded turn o :: rest =>
      let '(w', text) := controlShelly turn o w in
      dispatch rest w' (text :: alerts)
  end.

Definition pollsOf (es : list Event) : list Poll :=
  omap (fun e => match e with Polled p => Some p | Commanded _ _ => None end)
       es.

(** What a poll hands to the accumulator: [Some None] when it fails,
    [None] when the reading is not a number. *)
Definition sampleOf (p : Poll) : option (option Sample) :=
  match outcome p with
  | FetchRejected | JsonRejected => Some None
  | JsonResolved data =>
      match readPower data with
      | Throw => Some None
      | Normal (JNum watts) =>
          Some (Some {| power := watts; now := poll_now p;
                        dateNow := poll_dateNow p |})
      | Normal _ => None
      end
  end.

Fixpoint samplesOf (ps : list Poll) : option (list Sample) :=
  match ps with
  | [] => Some []
  | p :: rest =>
      r ← sampleOf p;
      smps ← samplesOf rest;
      Some (match r with Some smp => smp :: smps | None => smps end)
  end.

(** The document [JSON.stringify(state)] writes, as [JSON.parse] reads it
    back: the five properties of [state]. *)
Definition snapshot (s : State) : JValue :=
  JObj (<["lastTimestamp" :=
           match lastTimestamp s with
           | Some t => JNum (inject_Z t)
           | None => JNull
           end]>
        (<["lastPower" := JNum (lastPower s)]>
         (<["picoEnergy" := JNum (picoEnergy s)]>
          (<["llanoEnergy" := JNum (llanoEnergy s)]>
           (<["day" :=
               match day s with Some d => JStr d | None => JNull end]>
            ∅))))).

(** ** The service worker *)

Module ServiceWorker.

Definition CACHE_NAME : string := "duy-energy-cache-v1".

Definition ASSETS_TO_CACHE : list string :=
  [ "./index.html"; "./styles.css"; "./app.js"; "./config.js";
    "./manifest.json"; "./icons/icon-192.png"; "./icons/icon-512.png" ].

(** A response: whether its status is in the 200s, and what it carries. *)
Record Response : Type := mkResponse {
  ok : bool;
  body : string
}.

(** The network answers a GET for a URL with a response, or not at all. *)
Definition Network : Type := string -> option Response.

(** [caches]: the named caches in the order of their creation, each a map
    from request URL to response. *)
Definition CacheStorage : Type := list (string * gmap string Response).

Definition has (name : string) (cs : CacheStorage) : bool :=
  existsb (fun entry => String.eqb (fst entry) name) cs.

(** [caches.open(name)] creates the cache if there is none of that name. *)
Definition open (name : string) (cs : CacheStorage) : CacheStorage :=
  if has name cs then cs else cs ++ [(name, ∅)].

(** The requests of [cache.addAll(urls)]: all of them must be answered
    with an ok response. *)
Fixpoint fetchAll (net : Network) (urls : list string)
  : option (list (string * Response)) :=
  match urls with
  | [] => Some []
  | url :: rest =>
      match net url with
      | Some r =>
          if ok r then rs ← fetchAll net rest; Some ((url, r) :: rs)
          else None
      | None => None
      end
  end.

Definition putAll (rs : list (string * Response)) (c : gmap string Response)
  : gmap string Response :=
  fold_left (fun acc entry => <[fst entry := snd entry]> acc) rs c.

Definition inCache (name : string) (f : gmap string Response -> gmap string Response)
    (cs : CacheStorage) : CacheStorage :=
  map (fun entry =>
         if String.eqb (fst entry) name then (fst entry, f (snd entry))
         else entry) cs.

(** The [install] handler: open the cache, add all assets or none.  The
    boolean tells whether the promise given to [waitUntil] is fulfilled. *)
Definition install (net : Network) (cs : CacheStorage) : CacheStorage * bool :=
  let opened := open CACHE_NAME cs in
  match fetchAll net ASSETS_TO_CACHE with
  | Some rs => (inCache CACHE_NAME (putAll rs) opened, true)
  | None => (opened, false)
  end.

(** The [activate] handler: delete every cache whose name is not
    [CACHE_NAME]. *)
Definition activate (cs : CacheStorage) : CacheStorage :=
  filter (fun entry => String.eqb (fst entry) CACHE_NAME = true) cs.

(** [caches.match(request)]: the first cache, in creation order, that
    holds the URL. *)
Fixpoint cachesMatch (cs : CacheStorage) (url : string) : option Response :=
  match cs with
  | [] => None
  | (_, c) :: rest =>
      match c !! url with
      | Some r => Some r
      | None => cachesMatch rest url
      end
  end.

(** The [fetch] handler: the cached response, or else the network's. *)
Definition onFetch (net : Network) (cs : CacheStorage) (url : string)
  : option Response :=
  match cachesMatch cs url with
  | Some r => Some r
  | None => net url
  end.

End ServiceWorker.

(** ** The days of the specification and of the calendar *)

(** The [today] of the specification (sections 3 and 4.1): the calendar
    date of an instant in local time, where the script takes the one
    [toISOString] prints, which is the date in UTC. *)
Definition localDay {host : Host} (t : Z) : string :=
  isoDay (t + LocalTZA t).

(** The Gregorian calendar as ECMAScript counts it: the day number of the
    first day of a year, leap years, and the days of a year that precede a
    month. *)
Module Calendar.

Definition DayFromYear (y : Z) : Z :=
  365 * (y - 1970) + (y - 1969) / 4 - (y - 1901) / 100 + (y - 1601) / 400.

Definition InLeapYear (y : Z) : Z :=
  if (y mod 4 =? 0) && (negb (y mod 100 =? 0) || (y mod 400 =? 0))
  then 1 else 0.

Definition daysBeforeMonth (y m : Z) : Z :=
  match m with
  | 1 => 0
  | 2 => 31
  | 3 => 59 + InLeapYear y
  | 4 => 90 + InLeapYear y
  | 5 => 120 + InLeapYear y
  | 6 => 151 + InLeapYear y
  | 7 => 181 + InLeapYear y
  | 8 => 212 + InLeapYear y
  | 9 => 243 + InLeapYear y
  | 10 => 273 + InLeapYear y
  | 11 => 304 + InLeapYear y
  | _ => 334 + InLeapYear y
  end.

Definition daysInMonth (y m : Z) : Z :=
  match m with
  | 2 => 28 + InLeapYear y
  | 4 | 6 | 9 | 11 => 30
  | _ => 31
  end.

(** [y]-[m]-[d] is a date of the calendar and [days] is its day number. *)
Definition isDateOf (y m d days : Z) : bool :=
  (1 <=? m) && (m <=? 12) && (1 <=? d) && (d <=? daysInMonth y m)
  && (DayFromYear y + daysBeforeMonth y m + (d - 1) =? days).

Definition civilCheck (days : Z) : bool :=
  let '(y, m, d) := JSDate.civilFromDays days in isDateOf y m d days.

(** [f] holds of the [count] integers from [z] on. *)
Fixpoint allFrom (count : nat) (z : Z) (f : Z -> bool) : bool :=
  match count with
  | O => true
  | S k => f z && allFrom k (z + 1) f
  end.

End Calendar.

(** ** The integration as the script computes it, in doubles

    The state and the three steps of [handleNewPowerMeasurement] once more,
    with IEEE binary64 numbers in the place of the rationals: the same
    operations in the same order, each one rounded. *)

Module Doubles.

(** An instant as a double; exact below 2^53. *)
Definition toDouble (z : Z) : float :=
  if z <? 0 then PrimFloat.opp (PrimFloat.of_uint63 (Uint63.of_Z (- z)))
  else PrimFloat.of_uint63 (Uint63.of_Z z).

(** The rational a finite double stands for. *)
Definition exactValue (x : float) : option Q :=
  match Prim2SF x with
  | S754_zero _ => Some 0%Q
  | S754_finite negative m e =>
      Some ((if negative then - inject_Z (Z.pos m) else inject_Z (Z.pos m))
            * Qpower 2 e)%Q
  | S754_infinity _ | S754_nan => None
  end.

Record State64 : Type := mkState64 {
  lastTimestamp64 : option Z;
  lastPower64 : float;
  picoEnergy64 : float;
  llanoEnergy64 : float;
  day64 : option string
}.

Definition initialState64 : State64 :=
  {| lastTimestamp64 := None; lastPower64 := 0; picoEnergy64 := 0;
     llanoEnergy64 := 0; day64 := None |}.

Record Sample64 : Type := mkSample64 {
  power64 : float;
  now64 : Z;
  dateNow64 : Z
}.

Section Integration.

Context {host : Host}.

(** [state.day && state.day !== today] *)
Definition newDayStarted64 (s : State64) (today : string) : bool :=
  match day64 s with
  | None => false
  | Some d => negb (String.eqb d "") && negb (String.eqb d today)
  end.

(** Lines 91-97 *)
Definition resetDaily64 (today : string) (s : State64) : State64 :=
  let s1 :=
    if newDayStarted64 s today then
      {| lastTimestamp64 := None; lastPower64 := lastPower64 s;
         picoEnergy64 := 0; llanoEnergy64 := 0; day64 := day64 s |}
    else s in
  {| lastTimestamp64 := lastTimestamp64 s1; lastPower64 := lastPower64 s1;
     picoEnergy64 := picoEnergy64 s1; llanoEnergy64 := llanoEnergy64 s1;
     day64 := Some today |}.

(** Lines 100-105 *)
Definition energyDelta64 (lastPower : float) (t now : Z) : float :=
  let elapsedMs := (toDouble now - toDouble t)%float in
  let elapsedHours := (elapsedMs / (1000 * 60 * 60))%float in
  ((lastPower * elapsedHours) / 1000)%float.

(** Lines 99-113 *)
Definition integrate64 (now : Z) (s : State64) : State64 :=
  match lastTimestamp64 s with
  | Some t =>
      let delta := energyDelta64 (lastPower64 s) t now in
      let hour := JSDate.getHours LocalTZA t in
      if isPeak hour then
        {| lastTimestamp64 := lastTimestamp64 s;
           lastPower64 := lastPower64 s;
           picoEnergy64 := (picoEnergy64 s + delta)%float;
           llanoEnergy64 := llanoEnergy64 s; day64 := day64 s |}
      else
        {| lastTimestamp64 := lastTimestamp64 s;
           lastPower64 := lastPower64 s;
           picoEnergy64 := picoEnergy64 s;
           llanoEnergy64 := (llanoEnergy64 s + delta)%float;
           day64 := day64 s |}
  | None => s
  end.

(** Lines 115-116 *)
Definition remember64 (power : float) (now : Z) (s : State64) : State64 :=
  {| lastTimestamp64 := Some now; lastPower64 := power;
     picoEnergy64 := picoEnergy64 s; llanoEnergy64 := llanoEnergy64 s;
     day64 := day64 s |}.

Definition nextState64 (smp : Sample64) (s : State64) : State64 :=
  let today := isoDay (dateNow64 smp) in
  remember64 (power64 smp) (now64 smp)
    (integrate64 (now64 smp) (resetDaily64 today s)).

Definition run64 (smps : list Sample64) (s : State64) : State64 :=
  fold_left (fun acc smp => nextState64 smp acc) smps s.

(** The intervals of a sequence of measurements, each with the bucket its
    start hour picks ([true]: peak) and its energy delta. *)
Fixpoint intervals64 (prev : option Z) (prevPower : float)
    (smps : list Sample64) : list (bool * float) :=
  match smps with
  | [] => []
  | smp :: rest =>
      let tail := intervals64 (Some (now64 smp)) (power64 smp) rest in
      match prev with
      | Some t =>
          (isPeak (JSDate.getHours LocalTZA t),
           energyDelta64 prevPower t (now64 smp)) :: tail
      | None => tail
      end
  end.

End Integration.

(** The deltas of one bucket, in order. *)
Definition deltasOf (peak : bool) (ivs : list (bool * float)) : list float :=
  map snd (List.filter (fun iv => Bool.eqb (fst iv) peak) ivs).

(** [total += delta] for each delta in turn. *)
Definition accumulate (total : float) (deltas : list float) : float :=
  fold_left PrimFloat.add deltas total.

(** The sum of finite doubles as the rational it is, without rounding. *)
Fixpoint exactSum (deltas : list float) : option Q :=
  match deltas with
  | [] => Some 0%Q
  | x :: rest =>
      match exactValue x, exactSum rest with
      | Some q, Some total => Some (q + total)%Q
      | _, _ => None
      end
  end.

End Doubles.

(** ** More scenarios *)

Module Cases.

(** 17:00 with 1000 W running, over a store that denies access. *)
Definition deniedWorld : World :=
  {| state := Demo.at1700;
     localStorage := {| entries := ∅; denied := true |};
     document := Demo.blank; console := [] |}.

(** A second reading stamped 17:00 sharp. *)
Definition again1700 : Sample :=
  {| power := 900; now := 1710100800000; dateNow := 1710100800400 |}.

(** 17:15, still 1000 W. *)
Definition sample1715 : Sample :=
  {| power := 1000; now := 1710101700000; dateNow := 1710101700000 |}.

(** 00:40 and 01:10 UTC of 2024-03-10 (21:40 and 22:10 local time of the
    9th). *)
Definition earlyMorning : list Sample :=
  [ {| power := 500; now := 1710031200000; dateNow := 1710031200000 |};
    {| power := 200; now := 1710033000000; dateNow := 1710033000000 |} ].

(** The state the measurement of 17:30 leaves when it starts from 17:00. *)
Definition savedAt1730 : State :=
  nextState (host := Demo.montevideo) Demo.sample1730 Demo.at1700.

(** A host whose codec writes one text and reads it back as the document
    of the state [s]. *)
Definition codecFor (s : State) : Host :=
  {| LocalTZA := fun _ => -10800000;
     toFixed := Demo.toFixedExact;
     JSON_parse :=
       fun text => if String.eqb text "saved" then Some (snapshot s) else None;
     JSON_stringify := fun _ => "saved" |}.

(** A stored document with two properties only. *)
Definition partialSnapshot : JValue :=
  JObj (<["day" := JStr "2024-03-10"]> (<["picoEnergy" := JNum (9 # 2)]> ∅)).

(** What the cloud answers when it refuses the request. *)
Definition refusal : JValue := JObj {[ "isok" := JBool false ]}.

(** A poll that fails, a click on each button, and two polls that
    succeed. *)
Definition session : list Event :=
  [ Polled (Demo.pollAt FetchRejected 1710099000000);
    Commanded "on" (ControlResponded true);
    Polled (Demo.pollAt (JsonResolved (Demo.meterBody (JNum 1000)))
                        1710100800000);
    Commanded "off" ControlRejected;
    Polled (Demo.pollAt (JsonResolved refusal) 1710102600000) ].

(** [config.js] as shipped for a device on the local network. *)
Definition SHELLY_CONFIG : Config :=
  {| server := "http://192.168.1.2";
     device_id := "d9ab8f";
     auth_key := "" |}.

Definition online : ServiceWorker.Network :=
  fun url =>
    Some {| ServiceWorker.ok := true;
            ServiceWorker.body := "content of " +:+ url |}.

Definition offline : ServiceWorker.Network := fun _ => None.

(** A network on which one of the icons is missing. *)
Definition missingIcon : ServiceWorker.Network :=
  fun url =>
    if String.eqb url "./icons/icon-512.png"
    then Some {| ServiceWorker.ok := false; ServiceWorker.body := "" |}
    else online url.

(** A cache left by an earlier generation of the worker. *)
Definition oldGeneration : ServiceWorker.CacheStorage :=
  [ ("duy-energy-cache-v0",
     {[ "./app.js" := {| ServiceWorker.ok := true;
                         ServiceWorker.body := "old script" |} ]}) ].

(** What the script holds after the sample of 00:10 UTC (21:10 local
    time), which started the UTC day 2024-03-10. *)
Definition after2110 : State :=
  {| lastTimestamp := Some 1710029400000; lastPower := 450;
     picoEnergy := 0; llanoEnergy := 0; day := Some "2024-03-10" |}.

(** 21:40 local time of 2024-03-09. *)
Definition sample2140 : Sample :=
  {| power := 500; now := 1710031200000; dateNow := 1710031200000 |}.

(** 23:50 local time of 2024-03-10 (02:50 UTC of the 11th), with the totals
    of the evening, dated by the script. *)
Definition at2350local : State :=
  {| lastTimestamp := Some 1710125400000; lastPower := 600;
     picoEnergy := 5 # 2; llanoEnergy := 7; day := Some "2024-03-11" |}.

(** 00:10 local time of 2024-03-11 (03:10 UTC). *)
Definition sample0010local : Sample :=
  {| power := 450; now := 1710126600000; dateNow := 1710126600000 |}.

(** 21:10 local time of 2024-03-10 (00:10 UTC of the 11th). *)
Definition sample2110 : Sample :=
  {| power := 100; now := 1710115800000; dateNow := 1710115800000 |}.

(** 16:00, 17:00, 18:00 and 19:00 local time of 2024-03-10, with 100 W,
    200 W and 300 W drawn in the three hours between. *)
Definition hourly : list Doubles.Sample64 :=
  [ {| Doubles.power64 := 100; Doubles.now64 := 1710097200000;
       Doubles.dateNow64 := 1710097200000 |};
    {| Doubles.power64 := 200; Doubles.now64 := 1710100800000;
       Doubles.dateNow64 := 1710100800000 |};
    {| Doubles.power64 := 300; Doubles.now64 := 1710104400000;
       Doubles.dateNow64 := 1710104400000 |};
    {| Doubles.power64 := 0; Doubles.now64 := 1710108000000;
       Doubles.dateNow64 := 1710108000000 |} ].

End Cases.

(** * Properties *)

(** ** The calendar of the host *)

Example toISOString_epoch :
  JSDate.toISOString 0 = "1970-01-01T00:00:00.000Z".
Proof. reflexivity. Qed.

Example toISOString_leap_day :
  JSDate.toISOString 1709251199999 = "2024-02-29T23:59:59.999Z".
Proof. vm_compute. reflexivity. Qed.

Example toISOString_before_epoch :
  JSDate.toISOString (-1) = "1969-12-31T23:59:59.999Z".
Proof. vm_compute. reflexivity. Qed.

Example toISOString_year_10000 :
  JSDate.toISOString 253402300800000 = "+010000-01-01T00:00:00.000Z".
Proof. vm_compute. reflexivity. Qed.

Example getHours_montevideo :
  JSDate.getHours (fun _ => -10800000) 1710100800000 = 17.
Proof. reflexivity. Qed.

(** From 1970 to the end of the year 9999 the date has a four-digit year,
    a month from 1 to 12 and a day from 1 to 31. *)
Lemma civilFromDays_range (days : Z) :
  0 <= days <= 2932896 ->
  let '(y, m, d) := JSDate.civilFromDays days in
  0 <= y <= 9999 /\ 1 <= m <= 12 /\ 1 <= d <= 31.
Proof.
  intros Hdays. unfold JSDate.civilFromDays.
  set (z := days + 719468).
  set (era := z / 146097).
  set (doe := z - era * 146097).
  set (yoe := (doe - doe / 1460 + doe / 36524 - doe / 146096) / 365).
  set (doy := doe - (365 * yoe + yoe / 4 - yoe / 100)).
  set (mp := (5 * doy + 2) / 153).
  cbv zeta.
  destruct (mp <? 10) eqn:Hmp;
    [apply Z.ltb_lt in Hmp | apply Z.ltb_ge in Hmp].
  - destruct (mp + 3 <=? 2) eqn:Hm;
      [apply Z.leb_le in Hm | apply Z.leb_gt in Hm];
      subst mp doy yoe doe era z; Z.to_euclidean_division_equations; lia.
  - destruct (mp - 9 <=? 2) eqn:Hm;
      [apply Z.leb_le in Hm | apply Z.leb_gt in Hm];
      subst mp doy yoe doe era z; Z.to_euclidean_division_equations; lia.
Qed.

(** In that range [isoDay] reads [YYYY-MM-DD]. *)
Lemma isoDay_shape (t : Z) :
  0 <= t < 253402300800000 ->
  let '(y, m, d) := JSDate.civilFromDays (t / JSDate.msPerDay) in
  (0 <= y <= 9999 /\ 1 <= m <= 12 /\ 1 <= d <= 31)
  /\ isoDay t =
       JSDate.padStart 4 y "" +:+ "-" +:+ JSDate.padStart 2 m "" +:+ "-"
       +:+ JSDate.padStart 2 d "".
Proof.
  intros Ht.
  assert (Hdays : 0 <= t / JSDate.msPerDay <= 2932896).
  { unfold JSDate.msPerDay. Z.to_euclidean_division_equations. lia. }
  pose proof (civilFromDays_range _ Hdays) as Hrange.
  unfold isoDay, JSDate.toISOString.
  destruct (JSDate.civilFromDays (t / JSDate.msPerDay)) as [[y m] d].
  split; [exact Hrange|].
  destruct Hrange as [[Hy0 Hy1] _].
  unfold JSDate.yearString.
  apply Z.leb_le in Hy0, Hy1. rewrite Hy0, Hy1. reflexivity.
Qed.

(** ** [civilFromDays] against the calendar *)

Lemma allFrom_spec (count : nat) (f : Z -> bool) (z0 : Z) :
  Calendar.allFrom count z0 f = true ->
  forall z, z0 <= z < z0 + Z.of_nat count -> f z = true.
Proof.
  revert z0. induction count as [|k IH]; intros z0 Hall z Hz; [lia|].
  cbn [Calendar.allFrom] in Hall.
  apply andb_true_iff in Hall as [Hhere Hrest].
  destruct (Z.eq_dec z z0) as [-> | Hne]; [exact Hhere|].
  apply (IH (z0 + 1)); [exact Hrest | lia].
Qed.

(** The 146097 days of the era that starts on 0000-03-01, one by one. *)
Lemma civilCheck_one_era :
  Calendar.allFrom (Z.to_nat 146097) 0
    (fun z => Calendar.civilCheck (z - 719468)) = true.
Proof. vm_compute. reflexivity. Qed.

Lemma civilFromDays_era (days k : Z) :
  JSDate.civilFromDays (days + 146097 * k) =
  let '(y, m, d) := JSDate.civilFromDays days in (y + 400 * k, m, d).
Proof.
  unfold JSDate.civilFromDays.
  replace (days + 146097 * k + 719468) with (days + 719468 + k * 146097)
    by lia.
  rewrite Z.div_add by discriminate.
  set (z := days + 719468).
  replace (z + k * 146097 - (z / 146097 + k) * 146097)
    with (z - z / 146097 * 146097) by lia.
  cbv zeta. f_equal. f_equal. lia.
Qed.

Lemma DayFromYear_era (y k : Z) :
  Calendar.DayFromYear (y + 400 * k) = Calendar.DayFromYear y + 146097 * k.
Proof.
  unfold Calendar.DayFromYear. Z.to_euclidean_division_equations. lia.
Qed.

Lemma InLeapYear_era (y k : Z) :
  Calendar.InLeapYear (y + 400 * k) = Calendar.InLeapYear y.
Proof.
  unfold Calendar.InLeapYear.
  replace ((y + 400 * k) mod 4) with (y mod 4)
    by (Z.to_euclidean_division_equations; lia).
  replace ((y + 400 * k) mod 100) with (y mod 100)
    by (Z.to_euclidean_division_equations; lia).
  replace ((y + 400 * k) mod 400) with (y mod 400)
    by (Z.to_euclidean_division_equations; lia).
  reflexivity.
Qed.

(** For every day number, [civilFromDays] is the date of the calendar with
    that day number: a month from 1 to 12, a day that month has in that
    year, and the count of days since 1970-01-01 that ECMAScript assigns
    to it. *)
Lemma civilFromDays_is_the_date (days : Z) :
  let '(y, m, d) := JSDate.civilFromDays days in
  Calendar.isDateOf y m d days = true.
Proof.
  set (era := (days + 719468) / 146097).
  set (doe := (days + 719468) mod 146097).
  assert (Hdoe : 0 <= doe < 0 + Z.of_nat (Z.to_nat 146097)).
  { rewrite Z2Nat.id by discriminate.
    subst doe. Z.to_euclidean_division_equations. lia. }
  assert (Hdays : days = (doe - 719468) + 146097 * era)
    by (subst doe era; Z.to_euclidean_division_equations; lia).
  pose proof (allFrom_spec _ _ 0 civilCheck_one_era doe Hdoe) as Hcheck.
  cbv beta in Hcheck. clearbody doe era.
  destruct (JSDate.civilFromDays days) as [[y m] d] eqn:Hcivil.
  rewrite Hdays, civilFromDays_era in Hcivil.
  unfold Calendar.civilCheck in Hcheck.
  destruct (JSDate.civilFromDays (doe - 719468)) as [[y0 m0] d0].
  apply pair_equal_spec in Hcivil as [Hym <-].
  apply pair_equal_spec in Hym as [<- <-].
  unfold Calendar.isDateOf in *.
  rewrite !andb_true_iff, !Z.leb_le, Z.eqb_eq in Hcheck.
  rewrite !andb_true_iff, !Z.leb_le, Z.eqb_eq.
  destruct Hcheck as ((((Hm1 & Hm2) & Hd1) & Hd2) & Hnum).
  unfold Calendar.daysInMonth, Calendar.daysBeforeMonth in *.
  rewrite InLeapYear_era, DayFromYear_era.
  repeat split; try lia.
Qed.

Section Properties.

Context {host : Host}.

(** ** What the effects leave alone *)

Lemma state_saveState (w : World) : state (saveState w) = state w.
Proof. unfold saveState. destruct (setItem _ _ _); reflexivity. Qed.

Lemma state_updateMetrics (w : World) : state (updateMetrics w) = state w.
Proof. reflexivity. Qed.

Lemma state_handleNewPowerMeasurement (smp : Sample) (w : World) :
  state (handleNewPowerMeasurement smp w) = nextState smp (state w).
Proof.
  unfold handleNewPowerMeasurement.
  rewrite state_updateMetrics, state_saveState. reflexivity.
Qed.

Lemma state_handleAll (smps : list Sample) (w : World) :
  state (handleAll smps w) = run smps (state w).
Proof.
  revert w. induction smps as [|smp rest IH]; intros w; [reflexivity|].
  unfold handleAll, run in *. cbn [fold_left].
  rewrite IH, state_handleNewPowerMeasurement. reflexivity.
Qed.

(** ** The three steps of a measurement, field by field *)

Lemma resetDaily_same_day (today : string) (s : State) :
  newDayStarted s today = false ->
  resetDaily today s =
    {| lastTimestamp := lastTimestamp s; lastPower := lastPower s;
       picoEnergy := picoEnergy s; llanoEnergy := llanoEnergy s;
       day := Some today |}.
Proof. intros Hno. unfold resetDaily. rewrite Hno. reflexivity. Qed.

Lemma resetDaily_new_day (today : string) (s : State) :
  newDayStarted s today = true ->
  resetDaily today s =
    {| lastTimestamp := None; lastPower := lastPower s;
       picoEnergy := 0; llanoEnergy := 0; day := Some today |}.
Proof. intros Hnew. unfold resetDaily. rewrite Hnew. reflexivity. Qed.

Lemma newDayStarted_true (s : State) (today d : string) :
  day s = Some d -> d <> "" -> d <> today -> newDayStarted s today = true.
Proof.
  intros Hd Hset Hdiff. unfold newDayStarted. rewrite Hd.
  apply String.eqb_neq in Hset, Hdiff. rewrite Hset, Hdiff. reflexivity.
Qed.

Lemma newDayStarted_false (s : State) (today : string) :
  newDayStarted s today = false <->
  day s = None \/ day s = Some "" \/ day s = Some today.
Proof.
  unfold newDayStarted. destruct (day s) as [d|]; [|tauto].
  rewrite andb_false_iff, !negb_false_iff, !String.eqb_eq.
  split.
  - intros [-> | ->]; auto.
  - intros [Hnone | [Hempty | Htoday]];
      [discriminate | left | right]; congruence.
Qed.

Lemma integrate_no_timestamp (now : Z) (s : State) :
  lastTimestamp s = None -> integrate now s = s.
Proof. intros Hnone. unfold integrate. rewrite Hnone. reflexivity. Qed.

Lemma day_integrate (now : Z) (s : State) : day (integrate now s) = day s.
Proof.
  unfold integrate. destruct (lastTimestamp s); [|reflexivity].
  destruct (isPeak _); reflexivity.
Qed.

Lemma isPeak_spec (hour : Z) : isPeak hour = true <-> 17 <= hour < 21.
Proof. unfold isPeak. rewrite andb_true_iff, Z.leb_le, Z.ltb_lt. tauto. Qed.



(** C9, amended: on a state with no previous timestamp, and when no new
    day has started, a call leaves both totals as they are; the fields it
    writes are [lastTimestamp], [lastPower] and [day], which becomes the
    date of the call. *)
Theorem first_sample_adds_no_energy (smp : Sample) (w : World) :
  lastTimestamp (state w) = None ->
  newDayStarted (state w) (isoDay (dateNow smp)) = false ->
  state (handleNewPowerMeasurement smp w) =
    {| lastTimestamp := Some (now smp); lastPower := power smp;
       picoEnergy := picoEnergy (state w);
       llanoEnergy := llanoEnergy (state w);
       day := Some (isoDay (dateNow smp)) |}.
Proof.
  intros Hnone Hsame.
  rewrite state_handleNewPowerMeasurement. unfold nextState.
  rewrite (resetDaily_same_day _ _ Hsame).
  rewrite integrate_no_timestamp by exact Hnone. reflexivity.
Qed.

(** C2: with a previous timestamp [t] and no new day, the call adds to
    one bucket [lastPower * elapsedHours / 1000], where [lastPower] is the
    power stored before the call and [elapsedHours] the time from [t] to
    [now] in hours, and leaves the other bucket alone; the power the call
    reports has no part in either total. *)
Theorem delta_is_previous_power_times_elapsed_hours
    (smp : Sample) (w : World) (t : Z) :
  lastTimestamp (state w) = Some t ->
  newDayStarted (state w) (isoDay (dateNow smp)) = false ->
  let s := state w in
  let s' := state (handleNewPowerMeasurement smp w) in
  let elapsedHours := (inject_Z (now smp - t) / 3600000)%Q in
  let delta := (lastPower s * elapsedHours / 1000)%Q in
  (picoEnergy s' = (picoEnergy s + delta)%Q
     /\ llanoEnergy s' = llanoEnergy s
   \/ picoEnergy s' = picoEnergy s
     /\ llanoEnergy s' = (llanoEnergy s + delta)%Q)
  /\ forall watts : Q,
       let other :=
         state (handleNewPowerMeasurement
                  {| power := watts; now := now smp;
                     dateNow := dateNow smp |} w) in
       picoEnergy other = picoEnergy s'
       /\ llanoEnergy other = llanoEnergy s'.
Proof.
  intros Ht Hsame s s' elapsedHours delta. subst s s'.
  split.
  - rewrite state_handleNewPowerMeasurement. unfold nextState.
    rewrite (resetDaily_same_day _ _ Hsame).
    unfold integrate. cbn [lastTimestamp lastPower]. rewrite Ht.
    destruct (isPeak _); [left | right]; split; reflexivity.
  - intros watts other. subst other.
    rewrite !state_handleNewPowerMeasurement. split; reflexivity.
Qed.

(** C3: in an integration step the whole delta goes to one bucket, and
    the local clock-hour of the previous timestamp alone picks it: the
    peak bucket when that hour is in [17, 21), the off-peak bucket
    otherwise, wherever [now] lies. *)
Theorem whole_delta_goes_to_bucket_of_start_hour
    (smp : Sample) (w : World) (t : Z) :
  lastTimestamp (state w) = Some t ->
  newDayStarted (state w) (isoDay (dateNow smp)) = false ->
  let s := state w in
  let s' := state (handleNewPowerMeasurement smp w) in
  let hour := JSDate.getHours LocalTZA t in
  let delta := energyDelta (lastPower s) t (now smp) in
  (17 <= hour < 21 ->
     picoEnergy s' = (picoEnergy s + delta)%Q
     /\ llanoEnergy s' = llanoEnergy s)
  /\ (~ 17 <= hour < 21 ->
     picoEnergy s' = picoEnergy s
     /\ llanoEnergy s' = (llanoEnergy s + delta)%Q).
Proof.
  intros Ht Hsame s s' hour delta. subst s s'.
  rewrite state_handleNewPowerMeasurement. unfold nextState.
  rewrite (resetDaily_same_day _ _ Hsame).
  unfold integrate. cbn [lastTimestamp lastPower picoEnergy llanoEnergy].
  rewrite Ht. fold hour delta.
  destruct (isPeak hour) eqn:Hpeak.
  - apply isPeak_spec in Hpeak. split; [intros _ | intros Hn; tauto].
    split; reflexivity.
  - split; [intros Hin | intros _; split; reflexivity].
    apply isPeak_spec in Hin. congruence.
Qed.

(** ** The usage ratio *)

(** C5, amended: the ratio [updateMetrics] reports is
    [llanoEnergy / (picoEnergy + llanoEnergy) * 100] whenever the sum is
    positive, and 0 whenever the sum is zero or negative; the card shows
    it with one decimal. *)
Theorem indice_is_offpeak_share_of_positive_total (w : World) :
  let s := state w in
  let total := (picoEnergy s + llanoEnergy s)%Q in
  ((0 < total)%Q -> indice s = (llanoEnergy s / total * 100)%Q)
  /\ ((total <= 0)%Q -> indice s = 0%Q)
  /\ indice_text (document (updateMetrics w)) = toFixed (indice s) 1 +:+ " %".
Proof.
  intros s total.
  assert (Hcases :
    ((0 < total)%Q -> indice s = (llanoEnergy s / total * 100)%Q)
    /\ ((total <= 0)%Q -> indice s = 0%Q)).
  { unfold indice. fold total.
    destruct (Qlt_le_dec 0 total) as [Hpos | Hnonpos].
    - split; [reflexivity|].
      intros Hle. exfalso. exact (Qlt_not_le _ _ Hpos Hle).
    - split; [|reflexivity].
      intros Hpos. exfalso. exact (Qlt_not_le _ _ Hpos Hnonpos). }
  destruct Hcases as [Hpos Hnonpos].
  split; [exact Hpos|]. split; [exact Hnonpos|]. reflexivity.
Qed.

(** ** Restoring the persisted state *)

Lemma strictEqString_true (v : option JValue) (text : string) :
  strictEqString v text = true <-> v = Some (JStr text).
Proof.
  unfold strictEqString. split.
  - destruct v as [[| | |s'| |]|]; try discriminate.
    intros Heq. apply String.eqb_eq in Heq. congruence.
  - intros ->. apply String.eqb_refl.
Qed.

Lemma strictEqString_false (v : option JValue) (text : string) :
  v <> Some (JStr text) -> strictEqString v text = false.
Proof.
  intros Hne. destruct (strictEqString v text) eqn:Heq; [|reflexivity].
  apply strictEqString_true in Heq. contradiction.
Qed.

(** Nothing stored, or a store that denies access: nothing is restored. *)
Lemma loadState_without_stored_text (dateNow : Z) (w : World) :
  getItem (localStorage w) storageKey = Some None
  \/ getItem (localStorage w) storageKey = None ->
  exists w', loadState dateNow w = Some w' /\ state w' = state w.
Proof.
  intros [Hget | Hget]; unfold loadState; rewrite Hget; eauto.
Qed.


(** ** Sequences of measurements *)

Lemma run_cons (smp : Sample) (rest : list Sample) (s : State) :
  run (smp :: rest) s = run rest (nextState smp s).
Proof. reflexivity. Qed.

Lemma newDayStarted_today (today : string) (s : State) :
  day s = Some today -> newDayStarted s today = false.
Proof.
  intros Hd. unfold newDayStarted. rewrite Hd, String.eqb_refl.
  apply andb_false_r.
Qed.

(** One measurement on a day that has not changed: the totals grow by the
    delta of the interval it closes, if it closes one. *)
Lemma nextState_same_day (smp : Sample) (s : State) :
  newDayStarted s (isoDay (dateNow smp)) = false ->
  let s' := nextState smp s in
  lastTimestamp s' = Some (now smp)
  /\ lastPower s' = power smp
  /\ day s' = Some (isoDay (dateNow smp))
  /\ (picoEnergy s' + llanoEnergy s' ==
       picoEnergy s + llanoEnergy s
       + Qsum (intervalDeltas (lastTimestamp s) (lastPower s) [smp]))%Q.
Proof.
  intros Hsame s'. subst s'. unfold nextState.
  rewrite (resetDaily_same_day _ _ Hsame).
  unfold integrate. cbn [lastTimestamp lastPower picoEnergy llanoEnergy].
  destruct (lastTimestamp s) as [t|].
  - destruct (isPeak _); (repeat split; [cbn; ring]).
  - repeat split. cbn. ring.
Qed.

Lemma Qsum_intervalDeltas_cons
    (prev : option Z) (prevPower : Q) (smp : Sample) (rest : list Sample) :
  (Qsum (intervalDeltas prev prevPower (smp :: rest)) ==
   Qsum (intervalDeltas prev prevPower [smp])
   + Qsum (intervalDeltas (Some (now smp)) (power smp) rest))%Q.
Proof. destruct prev; cbn; ring. Qed.

Lemma run_same_day (d : string) (smps : list Sample) (s : State) :
  newDayStarted s d = false ->
  Forall (fun smp => isoDay (dateNow smp) = d) smps ->
  (picoEnergy (run smps s) + llanoEnergy (run smps s) ==
   picoEnergy s + llanoEnergy s
   + Qsum (intervalDeltas (lastTimestamp s) (lastPower s) smps))%Q.
Proof.
  intros Hsame Hday. revert s Hsame.
  induction Hday as [|smp rest Hd _ IH]; intros s Hsame.
  - cbn. ring.
  - rewrite run_cons, Qsum_intervalDeltas_cons.
    rewrite <- Hd in Hsame.
    destruct (nextState_same_day smp s Hsame) as (Hts & Hpow & Hnext & Hsum).
    rewrite Hd in Hnext.
    rewrite (IH _ (newDayStarted_today _ _ Hnext)), Hts, Hpow, Hsum.
    ring.
Qed.

(** In exact arithmetic: over any sequence of samples none of which starts
    a new day, the sum of the two totals grows by the sum of the
    per-interval energy deltas of the sequence; from zeroed totals it is
    that sum. *)
Lemma exact_totals_within_a_day
    (d : string) (smps : list Sample) (w : World) :
  newDayStarted (state w) d = false ->
  Forall (fun smp => isoDay (dateNow smp) = d) smps ->
  let s := state w in
  let s' := state (handleAll smps w) in
  let deltas := intervalDeltas (lastTimestamp s) (lastPower s) smps in
  (picoEnergy s' + llanoEnergy s' ==
     picoEnergy s + llanoEnergy s + Qsum deltas)%Q
  /\ (s = initialState ->
      (picoEnergy s' + llanoEnergy s' == Qsum (intervalDeltas None 0 smps))%Q).
Proof.
  intros Hsame Hday s s' deltas. subst s s' deltas.
  rewrite state_handleAll.
  pose proof (run_same_day d smps (state w) Hsame Hday) as Hsum.
  split; [exact Hsum|].
  intros Hinit. rewrite Hinit in Hsum. rewrite Hinit, Hsum. cbn. ring.
Qed.

(** ** Signs *)

Lemma energyDelta_nonneg (watts : Q) (t now : Z) :
  (0 <= watts)%Q -> t <= now -> (0 <= energyDelta watts t now)%Q.
Proof.
  intros Hw Ht. unfold energyDelta, Qdiv.
  apply Qmult_le_0_compat; [|discriminate].
  apply Qmult_le_0_compat; [exact Hw|].
  apply Qmult_le_0_compat; [|discriminate].
  unfold Qle. cbn. lia.
Qed.

Lemma Qplus_nonneg (x y : Q) : (0 <= x -> 0 <= y -> 0 <= x + y)%Q.
Proof.
  intros Hx Hy. apply Qle_trans with (0 + 0)%Q; [discriminate|].
  apply Qplus_le_compat; assumption.
Qed.

Lemma nextState_nonnegative (smp : Sample) (s : State) :
  nonnegative s ->
  (0 <= power smp)%Q ->
  match lastTimestamp s with Some t => t <= now smp | None => True end ->
  nonnegative (nextState smp s).
Proof.
  intros (Hp & Hl & Hw) Hpow Hclock.
  unfold nonnegative, nextState, remember, resetDaily.
  cbn [picoEnergy llanoEnergy lastPower].
  destruct (newDayStarted s _).
  - cbn [integrate lastTimestamp picoEnergy llanoEnergy].
    repeat split; [discriminate | discriminate | exact Hpow].
  - unfold integrate. cbn [lastTimestamp lastPower picoEnergy llanoEnergy day].
    destruct (lastTimestamp s) as [t|].
    + pose proof (energyDelta_nonneg _ _ _ Hw Hclock) as Hdelta.
      destruct (isPeak _); cbn [picoEnergy llanoEnergy]; repeat split;
        auto using Qplus_nonneg.
    + cbn [picoEnergy llanoEnergy]. repeat split; assumption.
Qed.

Lemma run_nonnegative (smps : list Sample) (s : State) :
  nonnegative s ->
  Forall (fun smp => (0 <= power smp)%Q) smps ->
  clockMonotone (lastTimestamp s) smps ->
  nonnegative (run smps s).
Proof.
  intros Hs Hpow. revert s Hs.
  induction Hpow as [|smp rest Hp _ IH]; intros s Hs Hclock; [exact Hs|].
  destruct Hclock as [Hfirst Hrest].
  rewrite run_cons. apply IH.
  - apply nextState_nonnegative; assumption.
  - exact Hrest.
Qed.

(** C1, amended: starting from the zero-initialised state, after any
    sequence of [handleNewPowerMeasurement] calls whose power readings are
    all non-negative and whose [Date.now()] readings never decrease,
    [picoEnergy] and [llanoEnergy] are non-negative. *)
Theorem totals_nonnegative_for_nonnegative_power_and_monotone_clock
    (smps : list Sample) (w : World) :
  state w = initialState ->
  Forall (fun smp => (0 <= power smp)%Q) smps ->
  clockMonotone None smps ->
  (0 <= picoEnergy (state (handleAll smps w)))%Q
  /\ (0 <= llanoEnergy (state (handleAll smps w)))%Q.
Proof.
  intros Hinit Hpow Hclock. rewrite state_handleAll, Hinit.
  destruct (run_nonnegative smps initialState) as (Hp & Hl & _);
    [repeat split; discriminate | exact Hpow | exact Hclock | ].
  split; assumption.
Qed.

(** ** Polling *)

Lemma sameApp_refl (w : World) : sameApp w w.
Proof. repeat split. Qed.

Lemma sameApp_log (e : LogEntry) (w : World) : sameApp (log e w) w.
Proof. repeat split. Qed.

Lemma sameApp_handleNewPowerMeasurement (smp : Sample) (w1 w2 : World) :
  sameApp w1 w2 ->
  sameApp (handleNewPowerMeasurement smp w1)
          (handleNewPowerMeasurement smp w2).
Proof.
  intros (Hs & Hl & Hd).
  unfold handleNewPowerMeasurement, updateMetrics, saveState, setState.
  cbn [state localStorage document console]. rewrite Hs, Hl.
  destruct (setItem _ _ _); repeat split.
Qed.

Lemma sameApp_getShellyStatus (p : Poll) (w1 w2 : World) :
  sameApp w1 w2 ->
  option_Forall2 sameApp (getShellyStatus p w1) (getShellyStatus p w2).
Proof.
  intros Hsame. unfold getShellyStatus.
  assert (Hlog : sameApp (log fetchError w1) (log fetchError w2)).
  { destruct Hsame as (Hs & Hl & Hd). repeat split; assumption. }
  destruct (outcome p) as [| |data]; try (constructor; exact Hlog).
  destruct (readPower data) as [v|]; [|constructor; exact Hlog].
  destruct v; constructor.
  apply sameApp_handleNewPowerMeasurement. exact Hsame.
Qed.

Lemma sameApp_polling (ps : list Poll) (w1 w2 : World) :
  sameApp w1 w2 ->
  option_Forall2 sameApp (polling ps w1) (polling ps w2).
Proof.
  revert w1 w2. induction ps as [|p rest IH]; intros w1 w2 Hsame.
  - constructor. exact Hsame.
  - cbn [polling].
    destruct (sameApp_getShellyStatus p w1 w2 Hsame) as [a b Hab|].
    + cbn. apply IH. exact Hab.
    + constructor.
Qed.

(** C8: when a poll fails (the request is rejected, the body is not JSON,
    or reading the first meter throws), [getShellyStatus] logs the error
    and does nothing else: no measurement is handled, the accumulator
    state, the stored snapshot and the metric cards are as before; and
    whatever polls follow run as they would have run without the failed
    one. *)
Theorem failed_poll_only_logs (p : Poll) (w : World) :
  pollFails p ->
  getShellyStatus p w = Some (log fetchError w)
  /\ state (log fetchError w) = state w
  /\ localStorage (log fetchError w) = localStorage w
  /\ document (log fetchError w) = document w
  /\ console (log fetchError w) = fetchError :: console w
  /\ forall later : list Poll,
       option_Forall2 sameApp (polling (p :: later) w) (polling later w).
Proof.
  intros Hfail.
  assert (Hstatus : getShellyStatus p w = Some (log fetchError w)).
  { unfold getShellyStatus. unfold pollFails in Hfail.
    destruct (outcome p) as [| |data]; [reflexivity | reflexivity |].
    rewrite Hfail. reflexivity. }
  repeat split; [exact Hstatus|].
  intros later. cbn [polling]. rewrite Hstatus. cbn.
  apply sameApp_polling, sameApp_log.
Qed.

End Properties.

(** * Further properties of the script *)

Section Accumulator.

Context {host : Host}.

(** ** Persistence and display of a measurement *)

(** X1: when the store accepts the write, a call of
    [handleNewPowerMeasurement] leaves under [duyEnergyData] the JSON text
    of the state it has just computed, leaves every other key alone, logs
    nothing, and the four cards show the totals of that state. *)
Theorem measurement_is_persisted_and_shown (smp : Sample) (w : World) :
  denied (localStorage w) = false ->
  let w' := handleNewPowerMeasurement smp w in
  let s' := nextState smp (state w) in
  state w' = s'
  /\ getItem (localStorage w') storageKey = Some (Some (JSON_stringify s'))
  /\ (forall k : string,
        k <> storageKey ->
        getItem (localStorage w') k = getItem (localStorage w) k)
  /\ console w' = console w
  /\ document w' =
       {| total_text := toFixed (picoEnergy s' + llanoEnergy s') 3 +:+ " kWh";
          pico_text := toFixed (picoEnergy s') 3 +:+ " kWh";
          llano_text := toFixed (llanoEnergy s') 3 +:+ " kWh";
          indice_text := toFixed (indice s') 1 +:+ " %" |}.
Proof.
  intros Hopen w' s'. subst w'.
  unfold handleNewPowerMeasurement, updateMetrics, saveState, setState, setItem.
  cbn [state localStorage document console]. rewrite Hopen.
  cbn [state localStorage document console]. fold s'.
  split; [reflexivity|]. unfold getItem. cbn [entries denied].
  split; [rewrite lookup_insert_eq; reflexivity|].
  split; [|split; reflexivity].
  intros k Hk. rewrite Hopen. rewrite lookup_insert_ne by congruence.
  reflexivity.
Qed.

(** X2: when the store denies access, the call still computes the new
    state and shows it; the store is as before and the only trace is one
    warning on the console. *)
Theorem measurement_survives_a_denied_store (smp : Sample) (w : World) :
  denied (localStorage w) = true ->
  let w' := handleNewPowerMeasurement smp w in
  let s' := nextState smp (state w) in
  state w' = s'
  /\ localStorage w' = localStorage w
  /\ console w' = ConsoleWarn "Failed to save state:" :: console w
  /\ pico_text (document w') = toFixed (picoEnergy s') 3 +:+ " kWh"
  /\ llano_text (document w') = toFixed (llanoEnergy s') 3 +:+ " kWh".
Proof.
  intros Hdenied w' s'. subst w'.
  unfold handleNewPowerMeasurement, updateMetrics, saveState, setState, setItem.
  cbn [state localStorage document console]. rewrite Hdenied.
  repeat split.
Qed.

(** ** The usage ratio *)

(** X3: with non-negative totals the usage ratio lies between 0 and
    100. *)
Theorem indice_between_0_and_100 (s : State) :
  (0 <= picoEnergy s)%Q -> (0 <= llanoEnergy s)%Q ->
  (0 <= indice s)%Q /\ (indice s <= 100)%Q.
Proof.
  intros Hp Hl. unfold indice.
  destruct (Qlt_le_dec 0 (picoEnergy s + llanoEnergy s)) as [Hpos | _];
    [|split; discriminate].
  split.
  - apply Qmult_le_0_compat; [|discriminate].
    apply Qle_shift_div_l; [exact Hpos|].
    rewrite Qmult_0_l. exact Hl.
  - apply Qle_trans with (1 * 100)%Q; [|discriminate].
    apply Qmult_le_compat_r; [|discriminate].
    apply Qle_shift_div_r; [exact Hpos|].
    rewrite Qmult_1_l.
    apply Qle_trans with (0 + llanoEnergy s)%Q;
      [rewrite Qplus_0_l; apply Qle_refl|].
    apply Qplus_le_compat; [exact Hp | apply Qle_refl].
Qed.

(** ** Energy of an interval *)

Lemma energyDelta_no_time (watts : Q) (t : Z) :
  (energyDelta watts t t == 0)%Q.
Proof.
  unfold energyDelta. rewrite Z.sub_diag. unfold Qdiv.
  change (inject_Z 0) with 0%Q. ring.
Qed.

Lemma energyDelta_no_power (watts : Q) (t now : Z) :
  (watts == 0)%Q -> (energyDelta watts t now == 0)%Q.
Proof.
  intros Hzero. unfold energyDelta, Qdiv. rewrite Hzero. ring.
Qed.

(** X4: with a previous timestamp and no new day, a call adds no energy
    when no time has passed since the previous measurement (a repeated
    timestamp) or when the stored power is zero: both totals keep their
    value. *)
Theorem no_energy_without_time_or_power (smp : Sample) (w : World) (t : Z) :
  lastTimestamp (state w) = Some t ->
  newDayStarted (state w) (isoDay (dateNow smp)) = false ->
  now smp = t \/ (lastPower (state w) == 0)%Q ->
  let s' := state (handleNewPowerMeasurement smp w) in
  (picoEnergy s' == picoEnergy (state w))%Q
  /\ (llanoEnergy s' == llanoEnergy (state w))%Q.
Proof.
  intros Ht Hsame Hnone s'. subst s'.
  assert (Hdelta : (energyDelta (lastPower (state w)) t (now smp) == 0)%Q).
  { destruct Hnone as [-> | Hzero];
      [apply energyDelta_no_time | apply energyDelta_no_power; exact Hzero]. }
  rewrite state_handleNewPowerMeasurement. unfold nextState.
  rewrite (resetDaily_same_day _ _ Hsame). unfold integrate.
  cbn [lastTimestamp lastPower picoEnergy llanoEnergy]. rewrite Ht.
  destruct (isPeak _); cbn [remember picoEnergy llanoEnergy];
    rewrite ?Hdelta; split; ring.
Qed.

Lemma Qle_plus_nonneg (x y : Q) : (0 <= y)%Q -> (x <= x + y)%Q.
Proof.
  intros Hy. apply Qle_trans with (x + 0)%Q;
    [rewrite Qplus_0_r; apply Qle_refl|].
  apply Qplus_le_compat; [apply Qle_refl | exact Hy].
Qed.

Lemma nextState_grows_totals (smp : Sample) (s : State) :
  nonnegative s ->
  newDayStarted s (isoDay (dateNow smp)) = false ->
  match lastTimestamp s with Some t => t <= now smp | None => True end ->
  (picoEnergy s <= picoEnergy (nextState smp s))%Q
  /\ (llanoEnergy s <= llanoEnergy (nextState smp s))%Q.
Proof.
  intros (_ & _ & Hw) Hsame Hclock. unfold nextState.
  rewrite (resetDaily_same_day _ _ Hsame). unfold integrate.
  cbn [lastTimestamp lastPower picoEnergy llanoEnergy].
  destruct (lastTimestamp s) as [t|];
    [|cbn [remember picoEnergy llanoEnergy]; split; apply Qle_refl].
  pose proof (energyDelta_nonneg _ _ _ Hw Hclock) as Hdelta.
  destruct (isPeak _); cbn [remember picoEnergy llanoEnergy]; split;
    auto using Qle_refl, Qle_plus_nonneg.
Qed.

(** X6: within one calendar day, with non-negative readings and a clock
    that does not run backwards, neither total ever decreases. *)
Theorem totals_never_decrease_within_a_day
    (d : string) (smps : list Sample) (s : State) :
  nonnegative s ->
  newDayStarted s d = false ->
  Forall (fun smp => isoDay (dateNow smp) = d) smps ->
  Forall (fun smp => (0 <= power smp)%Q) smps ->
  clockMonotone (lastTimestamp s) smps ->
  (picoEnergy s <= picoEnergy (run smps s))%Q
  /\ (llanoEnergy s <= llanoEnergy (run smps s))%Q.
Proof.
  intros Hs Hsame Hday. revert s Hs Hsame.
  induction Hday as [|smp rest Hd _ IH]; intros s Hs Hsame Hpow Hclock.
  - split; apply Qle_refl.
  - pose proof (Forall_inv Hpow) as Hp.
    pose proof (Forall_inv_tail Hpow) as Hrest.
    destruct Hclock as [Hfirst Hlater].
    rewrite <- Hd in Hsame.
    destruct (nextState_grows_totals smp s Hs Hsame Hfirst) as [Hpico Hllano].
    destruct (nextState_same_day smp s Hsame) as (_ & _ & Hnext & _).
    rewrite Hd in Hnext.
    destruct (IH (nextState smp s)) as [Hpico' Hllano'];
      [apply nextState_nonnegative; assumption
      | apply newDayStarted_today; exact Hnext
      | exact Hrest
      | exact Hlater
      | ].
    rewrite run_cons.
    split; eapply Qle_trans; eassumption.
Qed.

(** X7: when a measurement starts a new day (the stored day is set and is
    not the UTC date of the call), everything before it is forgotten: the
    state after it and any further measurements is the one reached by those
    further measurements from zeroed totals stamped with that measurement,
    whatever totals, timestamp, power and day were stored before. *)
Theorem rollover_forgets_what_came_before
    (smp : Sample) (rest : list Sample) (s : State) :
  newDayStarted s (isoDay (dateNow smp)) = true ->
  run (smp :: rest) s =
    run rest {| lastTimestamp := Some (now smp); lastPower := power smp;
                picoEnergy := 0; llanoEnergy := 0;
                day := Some (isoDay (dateNow smp)) |}
  /\ forall other : State,
       newDayStarted other (isoDay (dateNow smp)) = true ->
       run (smp :: rest) other = run (smp :: rest) s.
Proof.
  intros Hnew.
  assert (Hfirst : forall s0 : State,
            newDayStarted s0 (isoDay (dateNow smp)) = true ->
            run (smp :: rest) s0 =
              run rest {| lastTimestamp := Some (now smp);
                          lastPower := power smp;
                          picoEnergy := 0; llanoEnergy := 0;
                          day := Some (isoDay (dateNow smp)) |}).
  { intros s0 Hs0. rewrite run_cons. f_equal.
    unfold nextState. rewrite (resetDaily_new_day _ _ Hs0). reflexivity. }
  split; [exact (Hfirst s Hnew)|].
  intros other Hother. rewrite (Hfirst s Hnew). exact (Hfirst other Hother).
Qed.

End Accumulator.

(** * The totals in doubles *)

Section Conservation.

Context {host : Host}.

Lemma run64_cons (smp : Doubles.Sample64) (rest : list Doubles.Sample64)
    (s : Doubles.State64) :
  Doubles.run64 (smp :: rest) s =
  Doubles.run64 rest (Doubles.nextState64 smp s).
Proof. reflexivity. Qed.

(** One measurement on a day that has not changed, in doubles. *)
Lemma nextState64_same_day (smp : Doubles.Sample64) (s : Doubles.State64) :
  Doubles.newDayStarted64 s (isoDay (Doubles.dateNow64 smp)) = false ->
  let s' := Doubles.nextState64 smp s in
  let ivs :=
    Doubles.intervals64 (Doubles.lastTimestamp64 s) (Doubles.lastPower64 s)
                        [smp] in
  Doubles.lastTimestamp64 s' = Some (Doubles.now64 smp)
  /\ Doubles.lastPower64 s' = Doubles.power64 smp
  /\ Doubles.day64 s' = Some (isoDay (Doubles.dateNow64 smp))
  /\ Doubles.picoEnergy64 s' =
       Doubles.accumulate (Doubles.picoEnergy64 s) (Doubles.deltasOf true ivs)
  /\ Doubles.llanoEnergy64 s' =
       Doubles.accumulate (Doubles.llanoEnergy64 s)
                          (Doubles.deltasOf false ivs).
Proof.
  intros Hsame s' ivs. subst s' ivs.
  unfold Doubles.nextState64, Doubles.resetDaily64. rewrite Hsame.
  unfold Doubles.integrate64, Doubles.remember64.
  cbn [Doubles.lastTimestamp64 Doubles.lastPower64 Doubles.picoEnergy64
       Doubles.llanoEnergy64 Doubles.day64 Doubles.intervals64].
  destruct (Doubles.lastTimestamp64 s) as [t|].
  - destruct (isPeak _); repeat split.
  - repeat split.
Qed.

Lemma newDayStarted64_today (today : string) (s : Doubles.State64) :
  Doubles.day64 s = Some today -> Doubles.newDayStarted64 s today = false.
Proof.
  intros Hd. unfold Doubles.newDayStarted64. rewrite Hd, String.eqb_refl.
  apply andb_false_r.
Qed.

Lemma deltasOf_cons (peak : bool) (iv : bool * float)
    (ivs : list (bool * float)) :
  Doubles.deltasOf peak (iv :: ivs) =
  if Bool.eqb (fst iv) peak then snd iv :: Doubles.deltasOf peak ivs
  else Doubles.deltasOf peak ivs.
Proof.
  unfold Doubles.deltasOf. cbn [List.filter].
  destruct (Bool.eqb (fst iv) peak); reflexivity.
Qed.

Lemma intervals64_cons (prev : option Z) (prevPower : float)
    (smp : Doubles.Sample64) (rest : list Doubles.Sample64) :
  Doubles.intervals64 prev prevPower (smp :: rest) =
  Doubles.intervals64 prev prevPower [smp]
  ++ Doubles.intervals64 (Some (Doubles.now64 smp)) (Doubles.power64 smp)
                         rest.
Proof. destruct prev; reflexivity. Qed.

Lemma deltasOf_app (peak : bool) (l1 l2 : list (bool * float)) :
  Doubles.deltasOf peak (l1 ++ l2) =
  Doubles.deltasOf peak l1 ++ Doubles.deltasOf peak l2.
Proof.
  unfold Doubles.deltasOf. rewrite List.filter_app, map_app. reflexivity.
Qed.

Lemma accumulate_app (total : float) (l1 l2 : list float) :
  Doubles.accumulate total (l1 ++ l2) =
  Doubles.accumulate (Doubles.accumulate total l1) l2.
Proof. unfold Doubles.accumulate. apply fold_left_app. Qed.

Lemma deltasOf_split (ivs : list (bool * float)) :
  Permutation (Doubles.deltasOf true ivs ++ Doubles.deltasOf false ivs)
              (map snd ivs).
Proof.
  induction ivs as [|[[] delta] rest IH]; [constructor| |];
    rewrite !deltasOf_cons; cbn [fst snd Bool.eqb map app].
  - constructor. exact IH.
  - symmetry. apply Permutation_cons_app. symmetry. exact IH.
Qed.

(** One interval for each sample that has a sample or a stored timestamp
    before it. *)
Lemma intervals64_length (prev : option Z) (prevPower : float)
    (smps : list Doubles.Sample64) :
  length (Doubles.intervals64 prev prevPower smps) =
  match prev with
  | Some _ => length smps
  | None => Nat.pred (length smps)
  end.
Proof.
  revert prev prevPower.
  induction smps as [|smp rest IH]; intros prev prevPower.
  - destruct prev; reflexivity.
  - cbn [Doubles.intervals64 length].
    specialize (IH (Some (Doubles.now64 smp)) (Doubles.power64 smp)).
    destruct prev; cbn [length Nat.pred]; rewrite IH; reflexivity.
Qed.

(** C7, amended: over any sequence of samples handled within one UTC
    calendar day (no sample starts a new day), every per-interval energy
    delta is added exactly once, to exactly one of the two totals, and the
    totals are sums of doubles, each addition rounded: [picoEnergy] is its
    value before, increased in turn by the deltas of the intervals that
    start in a peak hour, and [llanoEnergy] likewise by the deltas of the
    others; the two lists of deltas together are, up to their order, the
    deltas of all intervals, one interval for each sample that has a
    timestamp before it. *)
Theorem each_delta_is_added_once_to_one_bucket
    (d : string) (smps : list Doubles.Sample64) (s : Doubles.State64) :
  Doubles.newDayStarted64 s d = false ->
  Forall (fun smp => isoDay (Doubles.dateNow64 smp) = d) smps ->
  let ivs :=
    Doubles.intervals64 (Doubles.lastTimestamp64 s) (Doubles.lastPower64 s)
                        smps in
  Doubles.picoEnergy64 (Doubles.run64 smps s) =
    Doubles.accumulate (Doubles.picoEnergy64 s) (Doubles.deltasOf true ivs)
  /\ Doubles.llanoEnergy64 (Doubles.run64 smps s) =
    Doubles.accumulate (Doubles.llanoEnergy64 s) (Doubles.deltasOf false ivs)
  /\ Permutation (Doubles.deltasOf true ivs ++ Doubles.deltasOf false ivs)
                 (map snd ivs)
  /\ length ivs =
       match Doubles.lastTimestamp64 s with
       | Some _ => length smps
       | None => Nat.pred (length smps)
       end.
Proof.
  intros Hsame Hday ivs.
  assert (Hbuckets :
    Doubles.picoEnergy64 (Doubles.run64 smps s) =
      Doubles.accumulate (Doubles.picoEnergy64 s) (Doubles.deltasOf true ivs)
    /\ Doubles.llanoEnergy64 (Doubles.run64 smps s) =
      Doubles.accumulate (Doubles.llanoEnergy64 s)
                         (Doubles.deltasOf false ivs)).
  { subst ivs. revert s Hsame.
    induction Hday as [|smp rest Hd _ IH]; intros s Hsame;
      [split; reflexivity|].
    rewrite <- Hd in Hsame.
    destruct (nextState64_same_day smp s Hsame)
      as (Hts & Hpow & Hnext & Hpico & Hllano).
    rewrite Hd in Hnext.
    destruct (IH _ (newDayStarted64_today _ _ Hnext)) as [IHpico IHllano].
    rewrite run64_cons, intervals64_cons, !deltasOf_app, !accumulate_app.
    rewrite IHpico, IHllano, Hts, Hpow, Hpico, Hllano.
    split; reflexivity. }
  destruct Hbuckets as [Hpico Hllano].
  split; [exact Hpico|]. split; [exact Hllano|].
  split; [apply deltasOf_split|apply intervals64_length].
Qed.

End Conservation.

Section Persistence.

Context {host : Host}.

(** ** Restoring what was saved *)

Lemma day_nextState (smp : Sample) (s : State) :
  day (nextState smp s) = Some (isoDay (dateNow smp)).
Proof.
  unfold nextState, remember. cbn [day]. rewrite day_integrate. reflexivity.
Qed.

Lemma assignTimestamp_snapshot (old : option Z) (ts : option Z) :
  assignTimestamp old
    (Some match ts with Some t => JNum (inject_Z t) | None => JNull end) =
  Some ts.
Proof.
  destruct ts as [t|]; [|reflexivity]. unfold assignTimestamp.
  rewrite Qfloor_Z.
  assert (Hrefl : Qeq_bool (inject_Z t) (inject_Z t) = true)
    by (apply Qeq_bool_iff; reflexivity).
  rewrite Hrefl. reflexivity.
Qed.

Lemma assignDay_snapshot (old : option string) (d : option string) :
  assignDay old (Some match d with Some x => JStr x | None => JNull end) =
  Some d.
Proof. destruct d; reflexivity. Qed.

(** Copying a full snapshot overwrites every field. *)
Lemma Object_assign_snapshot (old s : State) :
  Object_assign old (snapshot s) = Some s.
Proof.
  destruct s as [ts lp pe le d]. unfold Object_assign, snapshot, getProp.
  cbn [lastTimestamp lastPower picoEnergy llanoEnergy day].
  repeat (rewrite lookup_insert_ne by discriminate).
  rewrite !lookup_insert_eq.
  repeat (rewrite lookup_insert_ne by discriminate).
  rewrite !lookup_insert_eq.
  rewrite assignTimestamp_snapshot, assignDay_snapshot. reflexivity.
Qed.

Lemma day_snapshot (s : State) :
  getProp (snapshot s) "day" =
  Some match day s with Some d => JStr d | None => JNull end.
Proof.
  unfold snapshot, getProp.
  repeat (rewrite lookup_insert_ne by discriminate).
  apply lookup_insert_eq.
Qed.

Lemma getItem_after_measurement (smp : Sample) (w : World) :
  denied (localStorage w) = false ->
  getItem (localStorage (handleNewPowerMeasurement smp w)) storageKey =
  Some (Some (JSON_stringify (nextState smp (state w)))).
Proof.
  intros Hopen.
  unfold handleNewPowerMeasurement, updateMetrics, saveState, setState, setItem.
  cbn [state localStorage]. rewrite Hopen. cbn [localStorage].
  unfold getItem. cbn [entries denied]. rewrite lookup_insert_eq. reflexivity.
Qed.

(** X8: what a measurement saves is what the page restores.  Let the store
    accept writes and let the JSON codec read back the text written for the
    new state as that state's five properties.  A page opened later over the
    same store restores exactly that state if the UTC date at load time is
    the UTC date of the measurement, and keeps its own fresh state if the
    two UTC dates differ, also when the local date is still the same. *)
Theorem saved_state_is_restored_on_the_same_day
    (smp : Sample) (w reopened : World) (loadedAt : Z) :
  denied (localStorage w) = false ->
  let w1 := handleNewPowerMeasurement smp w in
  JSON_stringify (state w1) <> "" ->
  JSON_parse (JSON_stringify (state w1)) = Some (snapshot (state w1)) ->
  localStorage reopened = localStorage w1 ->
  exists w',
    loadState loadedAt reopened = Some w'
    /\ (isoDay loadedAt = isoDay (dateNow smp) -> state w' = state w1)
    /\ (isoDay loadedAt <> isoDay (dateNow smp) ->
        state w' = state reopened).
Proof.
  intros Hopen w1 Htext Hcodec Hstore.
  pose proof (state_handleNewPowerMeasurement smp w) as Hstate.
  pose proof (getItem_after_measurement smp w Hopen) as Hget.
  fold w1 in Hstate, Hget. rewrite <- Hstate in Hget.
  unfold loadState. rewrite Hstore, Hget.
  apply String.eqb_neq in Htext. rewrite Htext, Hcodec.
  rewrite day_snapshot, Hstate, day_nextState. cbn [strictEqString snapshot].
  destruct (String.eqb (isoDay (dateNow smp)) (isoDay loadedAt)) eqn:Hday.
  - apply String.eqb_eq in Hday.
    change (JObj _) with (snapshot (nextState smp (state w))).
    rewrite Object_assign_snapshot.
    exists (setState (nextState smp (state w)) reopened).
    split; [reflexivity|].
    split; [intros _; reflexivity|].
    intros Hdiff. exfalso. apply Hdiff. symmetry. exact Hday.
  - apply String.eqb_neq in Hday.
    exists reopened. split; [reflexivity|]. split; [|reflexivity].
    intros Hsame. exfalso. apply Hday. symmetry. exact Hsame.
Qed.

Lemma Object_assign_day (s s' : State) (parsed : JValue) (d : string) :
  Object_assign s parsed = Some s' ->
  getProp parsed "day" = Some (JStr d) ->
  day s' = Some d.
Proof.
  unfold Object_assign. intros Hassign Hday. rewrite Hday in Hassign.
  destruct (assignTimestamp _ _) as [ts|]; [|discriminate].
  destruct (assignNumber (lastPower s) _) as [lp|]; [|discriminate].
  destruct (assignNumber (picoEnergy s) _) as [pe|]; [|discriminate].
  destruct (assignNumber (llanoEnergy s) _) as [le|]; [|discriminate].
  cbn in Hassign. injection Hassign as <-. reflexivity.
Qed.

(** X9: whenever [loadState] changes the state, the state it leaves is
    dated with the UTC date at load time, so that a measurement handled
    later on that same UTC date finds no new day: it does not reset the
    restored totals, and both are still there, grown by at most the delta
    of the interval since the restored timestamp. *)
Theorem restored_totals_survive_the_next_measurement
    (loadedAt : Z) (w w' : World) (smp : Sample) :
  loadState loadedAt w = Some w' ->
  state w' <> state w ->
  isoDay (dateNow smp) = isoDay loadedAt ->
  day (state w') = Some (isoDay loadedAt)
  /\ newDayStarted (state w') (isoDay (dateNow smp)) = false
  /\ (lastTimestamp (state w') = None ->
      picoEnergy (state (handleNewPowerMeasurement smp w')) =
        picoEnergy (state w')
      /\ llanoEnergy (state (handleNewPowerMeasurement smp w')) =
        llanoEnergy (state w'))
  /\ (forall t, lastTimestamp (state w') = Some t ->
      let delta := energyDelta (lastPower (state w')) t (now smp) in
      (picoEnergy (state (handleNewPowerMeasurement smp w')) =
         (picoEnergy (state w') + delta)%Q
       /\ llanoEnergy (state (handleNewPowerMeasurement smp w')) =
         llanoEnergy (state w'))
      \/ (picoEnergy (state (handleNewPowerMeasurement smp w')) =
           picoEnergy (state w')
          /\ llanoEnergy (state (handleNewPowerMeasurement smp w')) =
           (llanoEnergy (state w') + delta)%Q)).
Proof.
  intros Hload Hchanged Hsameday.
  assert (Hday : day (state w') = Some (isoDay loadedAt)).
  { unfold loadState in Hload.
    destruct (getItem (localStorage w) storageKey) as [[stored|]|];
      try (injection Hload as <-; contradiction).
    destruct (String.eqb stored "");
      [injection Hload as <-; contradiction|].
    destruct (JSON_parse stored) as [parsed|];
      [|injection Hload as <-; contradiction].
    destruct (strictEqString (getProp parsed "day") (isoDay loadedAt))
      eqn:Htoday.
    - apply strictEqString_true in Htoday.
      destruct parsed; try discriminate Htoday.
      destruct (Object_assign (state w) _) as [restored|] eqn:Hassign;
        [|discriminate Hload].
      cbn in Hload. injection Hload as <-.
      exact (Object_assign_day _ _ _ _ Hassign Htoday).
    - destruct parsed; injection Hload as <-; contradiction. }
  assert (Hsame : newDayStarted (state w') (isoDay (dateNow smp)) = false).
  { rewrite Hsameday. apply newDayStarted_today. exact Hday. }
  split; [exact Hday|]. split; [exact Hsame|].
  rewrite state_handleNewPowerMeasurement. unfold nextState.
  rewrite (resetDaily_same_day _ _ Hsame). unfold integrate.
  cbn [lastTimestamp lastPower picoEnergy llanoEnergy].
  split.
  - intros Hnone. rewrite Hnone. split; reflexivity.
  - intros t Ht. cbv zeta. rewrite Ht.
    destruct (isPeak _); [left | right]; split; reflexivity.
Qed.

Lemma cons_neq {A : Type} (x : A) (l : list A) : x :: l <> l.
Proof.
  intros Heq. apply (f_equal (@length A)) in Heq. cbn in Heq. lia.
Qed.

Lemma not_thrown (text : string) (parsed : JValue) :
  text = "" \/ (JSON_parse text = Some parsed /\ parsed <> JNull) ->
  ~ (Some (Some text) = (None : option (option string))
     \/ exists stored,
          Some (Some text) = Some (Some stored)
          /\ stored <> ""
          /\ (JSON_parse stored = None \/ JSON_parse stored = Some JNull)).
Proof.
  intros Hwhy [Hn | (x & Hx & Hne & Hp)]; [discriminate|].
  injection Hx as <-.
  destruct Hwhy as [Hempty | [Hparse Hnonnull]]; [contradiction|].
  destruct Hp as [Hp | Hp]; congruence.
Qed.

(** The two ways [loadState] ends: quietly, or in its [catch]. *)
Lemma loadState_quiet_or_warned (loadedAt : Z) (w w' : World) :
  loadState loadedAt w = Some w' ->
  let thrown :=
    getItem (localStorage w) storageKey = None
    \/ exists stored,
         getItem (localStorage w) storageKey = Some (Some stored)
         /\ stored <> ""
         /\ (JSON_parse stored = None \/ JSON_parse stored = Some JNull) in
  (localStorage w' = localStorage w /\ document w' = document w
   /\ console w' = console w /\ ~ thrown)
  \/ (w' = log loadWarning w /\ thrown).
Proof.
  intros Hload. cbv zeta. revert Hload. unfold loadState.
  destruct (getItem (localStorage w) storageKey) as [[stored|]|].
  - destruct (String.eqb stored "") eqn:Hempty.
    + apply String.eqb_eq in Hempty. intros Hload. injection Hload as <-.
      left. repeat split. apply (not_thrown stored JNull). left. exact Hempty.
    + apply String.eqb_neq in Hempty.
      destruct (JSON_parse stored) as [parsed|] eqn:Hparse.
      * destruct parsed;
          try (destruct (strictEqString _ _);
               [ destruct (Object_assign (state w) _) as [restored|];
                   [|intros Hload; discriminate Hload]
               | ];
               intros Hload; cbn in Hload; injection Hload as <-;
               left; repeat split;
               match goal with
               | Hp : JSON_parse stored = Some ?v |- _ =>
                   apply (not_thrown stored v); right;
                   split; [exact Hp | discriminate]
               end).
        intros Hload. injection Hload as <-. right. split; [reflexivity|].
        right. exists stored. auto.
      * intros Hload. injection Hload as <-. right. split; [reflexivity|].
        right. exists stored. auto.
  - intros Hload. injection Hload as <-. left. repeat split.
    intros [Hn | (x & Hx & _)]; discriminate.
  - intros Hload. injection Hload as <-. right. split; [reflexivity|].
    left. reflexivity.
Qed.

(** X10: [loadState] reads and never writes: whatever it returns has the
    store and the cards of before; the console gains the warning exactly
    when [getItem] throws, [JSON.parse] throws, or the text parses to
    [null], and then the state is untouched.  In particular nothing is
    logged when no text is stored. *)
Theorem loadState_reads_only_and_warns_on_a_throw
    (loadedAt : Z) (w w' : World) :
  loadState loadedAt w = Some w' ->
  localStorage w' = localStorage w
  /\ document w' = document w
  /\ (console w' = loadWarning :: console w <->
      getItem (localStorage w) storageKey = None
      \/ exists stored,
           getItem (localStorage w) storageKey = Some (Some stored)
           /\ stored <> ""
           /\ (JSON_parse stored = None \/ JSON_parse stored = Some JNull))
  /\ (console w' = loadWarning :: console w -> state w' = state w)
  /\ (console w' <> loadWarning :: console w -> console w' = console w).
Proof.
  intros Hload.
  destruct (loadState_quiet_or_warned loadedAt w w' Hload)
    as [(Hstore & Hdoc & Hconsole & Hnot) | [-> Hthrown]].
  - assert (Hquiet : console w' <> loadWarning :: console w).
    { rewrite Hconsole. intros Heq. symmetry in Heq.
      exact (cons_neq _ _ Heq). }
    split; [exact Hstore|]. split; [exact Hdoc|].
    split; [split; [intros Heq; contradiction | intros Hthrown; contradiction]|].
    split; [intros Heq; contradiction | intros _; exact Hconsole].
  - split; [reflexivity|]. split; [reflexivity|].
    split; [split; [intros _; exact Hthrown | intros _; reflexivity]|].
    split; [intros _; reflexivity|].
    intros Hne. exfalso. apply Hne. reflexivity.
Qed.

End Persistence.

Section Sampler.

Context {host : Host}.

(** ** Reading the power out of a response *)

(** X11: reading the power throws in one case only: [meters] is an array
    whose first element is [null].  Every other body, whatever its shape,
    yields a reading. *)
Theorem readPower_throws_only_on_a_null_first_meter (data : JValue) :
  readPower data = Throw <->
  exists rest,
    optChain (optChain (optChain (Some data) "data") "device_status")
             "meters" = Some (JArr (JNull :: rest)).
Proof.
  unfold readPower. cbv zeta.
  destruct (optChain (optChain (optChain (Some data) "data")
                        "device_status") "meters")
    as [[| | | |[|meter0 rest]|]|];
    try (split; [discriminate | intros [rest' Hm]; discriminate Hm]).
  destruct meter0;
    try (destruct (getProp _ "power") as [v|];
         [destruct (truthy (Some v))|];
         (split; [discriminate | intros [rest' Hm]; discriminate Hm])).
  split; [intros _; exists rest; reflexivity | reflexivity].
Qed.

(** X12: a reading is never a falsy value other than the number 0: it is
    the literal 0 the script falls back to, or a truthy value; a numeric
    reading is therefore 0 or different from zero, and [null], [false], the
    empty string and a zero in another form all read as 0. *)
Theorem readPower_is_zero_or_truthy (data v : JValue) :
  readPower data = Normal v ->
  (v = JNum 0 \/ truthy (Some v) = true)
  /\ (forall q, v = JNum q -> q = 0%Q \/ ~ (q == 0)%Q).
Proof.
  intros Hread.
  assert (Hcases : v = JNum 0 \/ truthy (Some v) = true).
  { revert Hread. unfold readPower. cbv zeta.
    destruct (optChain _ "meters") as [[| | | |[|meter0 rest]|]|];
      try (intros Hread; injection Hread as <-; left; reflexivity).
    destruct meter0; try discriminate;
      (destruct (getProp _ "power") as [v'|];
       [destruct (truthy (Some v')) eqn:Htruthy|];
       intros Hread; injection Hread as <-; auto). }
  split; [exact Hcases|].
  intros q ->. destruct Hcases as [Hzero | Htruthy].
  - left. congruence.
  - right. cbn in Htruthy. apply negb_true_iff in Htruthy.
    intros Heq. apply Qeq_bool_iff in Heq. congruence.
Qed.

(** X13: a body that parses but holds no first meter (no [data], no
    [device_status], no [meters], or [meters] not a non-empty array) is not
    an error: the poll hands a measurement of 0 W to the accumulator. *)
Theorem body_without_a_meter_counts_as_0W
    (p : Poll) (w : World) (data : JValue) :
  outcome p = JsonResolved data ->
  (forall meter0 rest,
     optChain (optChain (optChain (Some data) "data") "device_status")
              "meters" <> Some (JArr (meter0 :: rest))) ->
  getShellyStatus p w =
  Some (handleNewPowerMeasurement
          {| power := 0; now := poll_now p; dateNow := poll_dateNow p |} w).
Proof.
  intros Hbody Hnone. unfold getShellyStatus. rewrite Hbody.
  assert (Hread : readPower data = Normal (JNum 0)).
  { unfold readPower.
    destruct (optChain (optChain (optChain (Some data) "data")
                          "device_status") "meters")
      as [[| | | |[|meter0 rest]|]|]; try reflexivity.
    destruct (Hnone meter0 rest). reflexivity. }
  rewrite Hread. reflexivity.
Qed.

(** ** The polls as a whole *)

Lemma getShellyStatus_sampleOf (p : Poll) (w : World) :
  getShellyStatus p w =
  match sampleOf p with
  | Some (Some smp) => Some (handleNewPowerMeasurement smp w)
  | Some None => Some (log fetchError w)
  | None => None
  end.
Proof.
  unfold getShellyStatus, sampleOf.
  destruct (outcome p) as [| |data]; try reflexivity.
  destruct (readPower data) as [[]|]; reflexivity.
Qed.

(** X14: the accumulator sees exactly the readings of the polls that
    succeed, in their order: after any sequence of polls whose readings are
    numbers, the state is the one reached by handling those readings one
    after the other, the failed polls counting for nothing; and a session
    started by [init] ends in the state [loadState] restored, advanced by
    those readings. *)
Theorem polling_handles_the_successful_readings
    (ps : list Poll) (smps : list Sample) (w : World) :
  samplesOf ps = Some smps ->
  (exists w', polling ps w = Some w' /\ state w' = run smps (state w))
  /\ (forall (loadedAt : Z) (restored : World),
        loadState loadedAt w = Some restored ->
        exists w', init loadedAt ps w = Some w'
                   /\ state w' = run smps (state restored)).
Proof.
  intros Hsmps.
  assert (Hpolls : forall w0 : World,
            exists w', polling ps w0 = Some w'
                       /\ state w' = run smps (state w0)).
  { revert smps Hsmps. induction ps as [|p rest IH]; intros smps Hsmps w0.
    - injection Hsmps as <-. exists w0. split; reflexivity.
    - cbn [samplesOf polling] in *. rewrite getShellyStatus_sampleOf.
      destruct (sampleOf p) as [[smp|]|]; [| |discriminate Hsmps].
      + destruct (samplesOf rest) as [later|]; [|discriminate Hsmps].
        cbn in Hsmps. injection Hsmps as <-.
        destruct (IH later eq_refl (handleNewPowerMeasurement smp w0))
          as (w' & Hpoll & Hstate).
        exists w'. split; [exact Hpoll|].
        rewrite Hstate, state_handleNewPowerMeasurement. reflexivity.
      + destruct (samplesOf rest) as [later|]; [|discriminate Hsmps].
        cbn in Hsmps. injection Hsmps as <-.
        destruct (IH later eq_refl (log fetchError w0))
          as (w' & Hpoll & Hstate).
        exists w'. split; [exact Hpoll | exact Hstate]. }
  split; [apply Hpolls|].
  intros loadedAt restored Hload. unfold init. rewrite Hload.
  destruct (Hpolls (updateMetrics restored)) as (w' & Hpoll & Hstate).
  exists w'. split; [exact Hpoll | exact Hstate].
Qed.

(** ** Commands *)

Lemma sameApp_trans (w1 w2 w3 : World) :
  sameApp w1 w2 -> sameApp w2 w3 -> sameApp w1 w3.
Proof.
  intros (Hs & Hl & Hd) (Hs' & Hl' & Hd'). repeat split; congruence.
Qed.

Lemma sameApp_controlShelly (turn : string) (o : ControlOutcome) (w : World) :
  sameApp (fst (controlShelly turn o w)) w.
Proof. destruct o as [|[]]; repeat split. Qed.

Lemma dispatch_sameApp
    (es : list Event) (w1 w2 : World) (alerts : list string) :
  sameApp w1 w2 ->
  option_Forall2 sameApp (fst <$> dispatch es w1 alerts)
                 (polling (pollsOf es) w2).
Proof.
  revert w1 w2 alerts.
  induction es as [|[p|turn o] rest IH]; intros w1 w2 alerts Hsame.
  - constructor. exact Hsame.
  - change (pollsOf (Polled p :: rest)) with (p :: pollsOf rest).
    cbn [dispatch polling].
    pose proof (sameApp_getShellyStatus p w1 w2 Hsame) as Hstep.
    destruct (getShellyStatus p w1) as [a|], (getShellyStatus p w2) as [b|];
      inversion Hstep as [? ? Hab|]; subst; cbn.
    + apply IH. exact Hab.
    + constructor.
  - change (pollsOf (Commanded turn o :: rest)) with (pollsOf rest).
    cbn [dispatch].
    pose proof (sameApp_controlShelly turn o w1) as Hcmd.
    destruct (controlShelly turn o w1) as [w1' text]. cbn [fst] in Hcmd.
    apply IH. eapply sameApp_trans; eassumption.
Qed.

(** X15: commands never reach the accumulator: however clicks on the two
    buttons and their outcomes are interleaved with the polls, the state,
    the stored snapshot and the cards end up as if only the polls had
    happened; and every command raises exactly one alert. *)
Theorem commands_leave_the_accumulator_alone
    (es : list Event) (w : World) :
  option_Forall2 sameApp (fst <$> dispatch es w [])
                 (polling (pollsOf es) w)
  /\ (forall w' alerts,
        dispatch es w [] = Some (w', alerts) ->
        length alerts = length es - length (pollsOf es))%nat.
Proof.
  split; [apply dispatch_sameApp, sameApp_refl|].
  assert (Hcount : forall (w0 : World) (acc : list string) w' alerts,
            dispatch es w0 acc = Some (w', alerts) ->
            (length alerts + length (pollsOf es) =
             length acc + length es)%nat).
  { induction es as [|[p|turn o] rest IH]; intros w0 acc w' alerts Hrun.
    - injection Hrun as <- <-. cbn. lia.
    - change (pollsOf (Polled p :: rest)) with (p :: pollsOf rest).
      cbn [dispatch] in Hrun.
      destruct (getShellyStatus p w0) as [w1|]; [|discriminate Hrun].
      cbn in Hrun. apply IH in Hrun. cbn [length] in *. lia.
    - change (pollsOf (Commanded turn o :: rest)) with (pollsOf rest).
      cbn [dispatch] in Hrun.
      destruct (controlShelly turn o w0) as [w1 text].
      apply IH in Hrun. cbn [length] in *. lia. }
  intros w' alerts Hrun. apply Hcount in Hrun. cbn in Hrun. lia.
Qed.

End Sampler.

(** ** Request URLs *)

Lemma hexDigit_is_escape_char (c : ascii) :
  uriEscapeChar (hexDigit (N_of_ascii c / 16)) = true
  /\ uriEscapeChar (hexDigit (N_of_ascii c mod 16)) = true.
Proof.
  destruct c as [[] [] [] [] [] [] [] []]; split; vm_compute; reflexivity.
Qed.

Lemma encodeURIComponent_chars (s : string) :
  Forall (fun c => uriUnreserved c || uriEscapeChar c = true)
         (list_ascii_of_string (encodeURIComponent s)).
Proof.
  induction s as [|c rest IH]; [constructor|].
  cbn [encodeURIComponent]. destruct (uriUnreserved c) eqn:Hc.
  - cbn [list_ascii_of_string]. constructor; [|exact IH].
    rewrite Hc. reflexivity.
  - destruct (hexDigit_is_escape_char c) as [Hhi Hlo].
    cbn [list_ascii_of_string]. repeat constructor; try exact IH.
    + rewrite Hhi. apply orb_true_r.
    + rewrite Hlo. apply orb_true_r.
Qed.

Lemma encodeURIComponent_no_separator (s : string) (c : ascii) :
  In c (list_ascii_of_string (encodeURIComponent s)) ->
  ~ In c ["&"; "="; "?"; "#"; "/"; "+"; " "]%char.
Proof.
  intros Hin.
  pose proof (encodeURIComponent_chars s) as Hall.
  rewrite Forall_forall in Hall.
  assert (Hc : uriUnreserved c || uriEscapeChar c = true).
  { apply Hall. apply list_elem_of_In. exact Hin. }
  intros Hsep. cbn [In] in Hsep.
  repeat (destruct Hsep as [<- | Hsep]; [vm_compute in Hc; discriminate Hc|]).
  exact Hsep.
Qed.

(** X16: whatever the device id, the key and the command contain, the two
    request URLs have the shape the script writes down: the three values
    appear in a form that holds none of [& = ? # / + space], so a value
    cannot add, cut or rename a parameter of the request. *)
Theorem request_urls_keep_their_parameters (cfg : Config) (turn : string) :
  exists id key cmd : string,
    statusUrl cfg =
      server cfg +:+ "/device/status?device_id=" +:+ id
      +:+ "&auth_key=" +:+ key
    /\ controlUrl cfg turn =
      server cfg +:+ "/device/relay/control?device_id=" +:+ id
      +:+ "&auth_key=" +:+ key +:+ "&channel=0&turn=" +:+ cmd
    /\ forall c : ascii,
         In c (list_ascii_of_string id) \/ In c (list_ascii_of_string key)
         \/ In c (list_ascii_of_string cmd) ->
         ~ In c ["&"; "="; "?"; "#"; "/"; "+"; " "]%char.
Proof.
  exists (encodeURIComponent (device_id cfg)),
         (encodeURIComponent (auth_key cfg)),
         (encodeURIComponent turn).
  split; [reflexivity|]. split; [reflexivity|].
  intros c [Hin | [Hin | Hin]];
    eapply encodeURIComponent_no_separator; exact Hin.
Qed.

Lemma encodeURIComponent_unreserved (s : string) :
  forallb uriUnreserved (list_ascii_of_string s) = true ->
  encodeURIComponent s = s.
Proof.
  induction s as [|c rest IH]; [reflexivity|].
  cbn [list_ascii_of_string forallb encodeURIComponent].
  intros Hall. apply andb_true_iff in Hall as [Hc Hrest].
  rewrite Hc, (IH Hrest). reflexivity.
Qed.

(** X17: a device id and a key made of letters, digits and
    [- _ . ! ~ * ' ( )] only are sent as they are written in
    [config.js]. *)
Theorem status_url_of_a_plain_configuration (cfg : Config) :
  forallb uriUnreserved (list_ascii_of_string (device_id cfg)) = true ->
  forallb uriUnreserved (list_ascii_of_string (auth_key cfg)) = true ->
  statusUrl cfg =
    server cfg +:+ "/device/status?device_id=" +:+ device_id cfg
    +:+ "&auth_key=" +:+ auth_key cfg.
Proof.
  intros Hid Hkey. unfold statusUrl.
  rewrite (encodeURIComponent_unreserved _ Hid),
          (encodeURIComponent_unreserved _ Hkey).
  reflexivity.
Qed.

Lemma hexDigit_inj (n m : N) :
  (n < 16)%N -> (m < 16)%N -> hexDigit n = hexDigit m -> n = m.
Proof.
  intros Hn Hm.
  assert (Hcases : forall k, (k < 16)%N ->
            k = 0%N \/ k = 1%N \/ k = 2%N \/ k = 3%N \/ k = 4%N \/ k = 5%N
            \/ k = 6%N \/ k = 7%N \/ k = 8%N \/ k = 9%N \/ k = 10%N
            \/ k = 11%N \/ k = 12%N \/ k = 13%N \/ k = 14%N \/ k = 15%N)
    by (intros k Hk; lia).
  destruct (Hcases n Hn) as
    [-> | [-> | [-> | [-> | [-> | [-> | [-> | [-> | [-> | [-> | [-> | [-> |
     [-> | [-> | [-> | ->]]]]]]]]]]]]]]];
  destruct (Hcases m Hm) as
    [-> | [-> | [-> | [-> | [-> | [-> | [-> | [-> | [-> | [-> | [-> | [-> |
     [-> | [-> | [-> | ->]]]]]]]]]]]]]]];
  vm_compute; intros Heq; first [reflexivity | discriminate Heq].
Qed.

Lemma escape_inj (c1 c2 : ascii) :
  hexDigit (N_of_ascii c1 / 16) = hexDigit (N_of_ascii c2 / 16) ->
  hexDigit (N_of_ascii c1 mod 16) = hexDigit (N_of_ascii c2 mod 16) ->
  c1 = c2.
Proof.
  intros Hhi Hlo.
  pose proof (N_ascii_bounded c1) as Hb1.
  pose proof (N_ascii_bounded c2) as Hb2.
  apply hexDigit_inj in Hhi;
    [|apply N.Div0.div_lt_upper_bound; lia
     |apply N.Div0.div_lt_upper_bound; lia].
  apply hexDigit_inj in Hlo;
    [|apply N.mod_lt; discriminate | apply N.mod_lt; discriminate].
  rewrite <- (ascii_N_embedding c1), <- (ascii_N_embedding c2).
  f_equal.
  rewrite (N.div_mod (N_of_ascii c1) 16) by discriminate.
  rewrite (N.div_mod (N_of_ascii c2) 16) by discriminate.
  congruence.
Qed.

Lemma encodeURIComponent_inj (s1 s2 : string) :
  encodeURIComponent s1 = encodeURIComponent s2 -> s1 = s2.
Proof.
  revert s2. induction s1 as [|c1 rest1 IH]; intros [|c2 rest2];
    cbn [encodeURIComponent].
  - reflexivity.
  - destruct (uriUnreserved c2); discriminate.
  - destruct (uriUnreserved c1); discriminate.
  - destruct (uriUnreserved c1) eqn:H1, (uriUnreserved c2) eqn:H2;
      intros Heq.
    + injection Heq as -> Hrest. f_equal. apply IH. exact Hrest.
    + injection Heq as -> _. vm_compute in H1. discriminate H1.
    + injection Heq as <- _. vm_compute in H2. discriminate H2.
    + injection Heq as Hhi Hlo Hrest.
      f_equal; [exact (escape_inj _ _ Hhi Hlo) | apply IH; exact Hrest].
Qed.

Lemma append_inv_head (prefix a b : string) :
  prefix +:+ a = prefix +:+ b -> a = b.
Proof.
  induction prefix as [|c rest IH]; cbn; [auto|].
  intros Heq. injection Heq as Heq. exact (IH Heq).
Qed.

(** X18: the request tells the commands apart: two different values of
    [turn] never yield the same URL, whatever characters they hold. *)
Theorem control_url_tells_commands_apart (cfg : Config) (turn1 turn2 : string) :
  controlUrl cfg turn1 = controlUrl cfg turn2 -> turn1 = turn2.
Proof.
  unfold controlUrl. intros Heq.
  repeat apply append_inv_head in Heq.
  exact (encodeURIComponent_inj _ _ Heq).
Qed.

(** ** The service worker *)

Module ServiceWorkerFacts.

Import ServiceWorker.

Lemma fetchAll_answers (net : Network) (urls : list string)
    (rs : list (string * Response)) :
  fetchAll net urls = Some rs ->
  map fst rs = urls
  /\ Forall (fun entry => net (fst entry) = Some (snd entry)
                          /\ ok (snd entry) = true) rs.
Proof.
  revert rs. induction urls as [|url rest IH]; intros rs Hall.
  - injection Hall as <-. split; [reflexivity | constructor].
  - cbn [fetchAll] in Hall.
    destruct (net url) as [r|] eqn:Hnet; [|discriminate Hall].
    destruct (ok r) eqn:Hok; [|discriminate Hall].
    destruct (fetchAll net rest) as [rs'|]; [|discriminate Hall].
    cbn in Hall. injection Hall as <-.
    destruct (IH rs' eq_refl) as [Hurls Hrs].
    split; [cbn; rewrite Hurls; reflexivity|].
    constructor; [split; assumption | exact Hrs].
Qed.

Lemma fetchAll_fails (net : Network) (urls : list string) :
  (exists url, In url urls
               /\ (net url = None
                   \/ exists r, net url = Some r /\ ok r = false)) ->
  fetchAll net urls = None.
Proof.
  intros (url & Hin & Hbad).
  induction urls as [|first rest IH]; [destruct Hin|].
  cbn [fetchAll].
  destruct (net first) as [r|] eqn:Hnet; [|reflexivity].
  destruct (ok r) eqn:Hok; [|reflexivity].
  destruct Hin as [-> | Hin].
  - destruct Hbad as [Hnone | (r' & Hr' & Hnok)]; congruence.
  - rewrite (IH Hin). reflexivity.
Qed.

Lemma putAll_lookup (net : Network) (rs : list (string * Response))
    (c : gmap string Response) (url : string) :
  Forall (fun entry => net (fst entry) = Some (snd entry)) rs ->
  In url (map fst rs) ->
  putAll rs c !! url = net url.
Proof.
  intros Hrs. revert c.
  induction Hrs as [|[u r] rest Hentry _ IH]; intros c Hin; [destruct Hin|].
  cbn [fst snd] in Hentry. unfold putAll. cbn [fold_left fst snd].
  fold (putAll rest (<[u := r]> c)).
  destruct (in_dec String.string_dec url (map fst rest)) as [Hlater | Hnot].
  - apply IH. exact Hlater.
  - destruct Hin as [Hhere | Hlater]; [|contradiction].
    cbn in Hhere. subst u.
    assert (Hkeep : forall c', putAll rest c' !! url = c' !! url).
    { clear -Hnot. induction rest as [|[u' r'] rest IH]; intros c';
        [reflexivity|].
      unfold putAll. cbn [fold_left fst snd].
      fold (putAll rest (<[u' := r']> c')).
      rewrite IH by (intros Hin; apply Hnot; right; exact Hin).
      apply lookup_insert_ne. intros ->. apply Hnot. left. reflexivity. }
    rewrite Hkeep, lookup_insert_eq. symmetry. exact Hentry.
Qed.

Lemma has_open (name : string) (cs : CacheStorage) :
  exists c, In (name, c) (open name cs).
Proof.
  unfold open. destruct (has name cs) eqn:Hhas.
  - unfold has in Hhas. apply existsb_exists in Hhas as ([n c] & Hin & Hn).
    cbn in Hn. apply String.eqb_eq in Hn. subst n. exists c. exact Hin.
  - exists ∅. apply in_or_app. right. left. reflexivity.
Qed.

Lemma cachesMatch_all (cs : CacheStorage) (url : string) (r : Response) :
  cs <> [] ->
  (forall name c, In (name, c) cs -> c !! url = Some r) ->
  cachesMatch cs url = Some r.
Proof.
  intros Hne Hall. destruct cs as [|[name c] rest]; [contradiction|].
  cbn [cachesMatch]. rewrite (Hall name c) by (left; reflexivity).
  reflexivity.
Qed.

Lemma cachesMatch_open (name : string) (cs : CacheStorage) (url : string) :
  cachesMatch (open name cs) url = cachesMatch cs url.
Proof.
  unfold open. destruct (has name cs); [reflexivity|].
  induction cs as [|[n c] rest IH]; [reflexivity|].
  cbn [app cachesMatch]. destruct (c !! url); [reflexivity | exact IH].
Qed.

Lemma In_activate (cs : CacheStorage) (name : string)
    (c : gmap string Response) :
  In (name, c) (activate cs) <-> In (name, c) cs /\ name = CACHE_NAME.
Proof.
  unfold activate. rewrite <- !list_elem_of_In, list_elem_of_filter.
  cbn [fst]. rewrite String.eqb_eq. tauto.
Qed.

Lemma In_inCache (name : string)
    (f : gmap string Response -> gmap string Response)
    (cs : CacheStorage) (c : gmap string Response) :
  In (name, c) (inCache name f cs) <->
  exists c0, In (name, c0) cs /\ c = f c0.
Proof.
  unfold inCache. rewrite in_map_iff. split.
  - intros ([n c0] & Heq & Hin). cbn [fst snd] in Heq.
    destruct (String.eqb n name) eqn:Hn.
    + apply String.eqb_eq in Hn. subst n. injection Heq as <-.
      exists c0. split; [exact Hin | reflexivity].
    + injection Heq as -> _. rewrite String.eqb_refl in Hn. discriminate Hn.
  - intros (c0 & Hin & ->). exists (name, c0). cbn [fst snd].
    rewrite String.eqb_refl. split; [reflexivity | exact Hin].
Qed.

(** X19: activation purges the stale generations: afterwards the caches are
    exactly those of before that carry the current name, with the content
    they had; activating again changes nothing. *)
Theorem activate_keeps_only_the_current_cache (cs : CacheStorage) :
  (forall name c,
     In (name, c) (activate cs) <-> In (name, c) cs /\ name = CACHE_NAME)
  /\ activate (activate cs) = activate cs.
Proof.
  split; [intros name c; apply In_activate|].
  unfold activate. apply list_filter_filter_l. auto.
Qed.

(** X20: once the worker is installed and activated, each of the seven
    assets is answered from the cache with the very response the network
    gave at installation, whatever the network answers at the time of the
    request, and also when it answers nothing. *)
Theorem installed_assets_are_served_offline
    (net later : Network) (cs cs' : CacheStorage) (url : string) :
  install net cs = (cs', true) ->
  In url ASSETS_TO_CACHE ->
  exists r, net url = Some r /\ ok r = true
            /\ onFetch later (activate cs') url = Some r.
Proof.
  unfold install. intros Hinstall Hasset.
  destruct (fetchAll net ASSETS_TO_CACHE) as [rs|] eqn:Hall;
    [|discriminate Hinstall].
  injection Hinstall as <-.
  destruct (fetchAll_answers _ _ _ Hall) as [Hurls Hrs].
  assert (Hnet : Forall (fun entry => net (fst entry) = Some (snd entry)) rs).
  { eapply Forall_impl; [exact Hrs|]. intros entry [Hentry _]. exact Hentry. }
  assert (Hin : In url (map fst rs)) by (rewrite Hurls; exact Hasset).
  apply in_map_iff in Hin as ([u r] & Hu & Hentry). cbn in Hu. subst u.
  rewrite Forall_forall in Hrs.
  destruct (Hrs (url, r)) as [Hr Hok];
    [apply list_elem_of_In; exact Hentry|].
  cbn [fst snd] in Hr, Hok.
  exists r. split; [exact Hr|]. split; [exact Hok|].
  unfold onFetch.
  rewrite (cachesMatch_all _ url r); [reflexivity | |].
  - destruct (has_open CACHE_NAME cs) as [c0 Hc0].
    intros Hempty.
    assert (Hthere :
      In (CACHE_NAME, putAll rs c0)
         (activate (inCache CACHE_NAME (putAll rs) (open CACHE_NAME cs)))).
    { apply In_activate. split; [|reflexivity].
      apply In_inCache. exists c0. split; [exact Hc0 | reflexivity]. }
    rewrite Hempty in Hthere. destruct Hthere.
  - intros name c Hc. apply In_activate in Hc as [Hc ->].
    apply In_inCache in Hc as (c0 & _ & ->).
    rewrite (putAll_lookup net rs c0 url Hnet); [exact Hr|].
    rewrite Hurls. exact Hasset.
Qed.

(** X21: installation adds all assets or none: if the network fails to
    answer one of them, or answers it with a status outside the 200s, the
    installation is rejected and no request is answered from the caches
    that was not answered from them before. *)
Theorem failed_install_caches_nothing (net : Network) (cs : CacheStorage) :
  (exists url, In url ASSETS_TO_CACHE
               /\ (net url = None
                   \/ exists r, net url = Some r /\ ok r = false)) ->
  snd (install net cs) = false
  /\ forall url, cachesMatch (fst (install net cs)) url = cachesMatch cs url.
Proof.
  intros Hbad. unfold install. rewrite (fetchAll_fails _ _ Hbad).
  split; [reflexivity|]. intros url. apply cachesMatch_open.
Qed.

End ServiceWorkerFacts.

(** * The scenarios of the specification, run in Montevideo *)

#[local] Existing Instance Demo.montevideo.

(** Feeding 1000 W back for one hour of the morning drives the off-peak
    total to -1 kWh, and so does drawing 1000 W while the clock is set back
    by an hour: states the script reaches from the zeroed one, with a
    negative total. *)
Lemma feed_in_makes_offpeak_total_negative :
  let s := state (handleAll Demo.feedIn (Demo.freshWorld None)) in
  let s2 := state (handleAll Demo.clockSetBack (Demo.freshWorld None)) in
  state (Demo.freshWorld None) = initialState
  /\ (llanoEnergy s == -1)%Q
  /\ ~ (0 <= llanoEnergy s)%Q
  /\ (llanoEnergy s2 == -1)%Q
  /\ ~ (0 <= llanoEnergy s2)%Q.
Proof.
  intros s s2. split; [reflexivity|]. split; [reflexivity|].
  split; [vm_compute; intros Hle; apply Hle; reflexivity|].
  split; [reflexivity|].
  vm_compute. intros Hle. apply Hle. reflexivity.
Qed.

Lemma afternoon_totals_nonnegative :
  let w := Demo.freshWorld None in
  state w = initialState
  /\ Forall (fun smp => (0 <= power smp)%Q) Demo.afternoon
  /\ clockMonotone None Demo.afternoon
  /\ (0 <= picoEnergy (state (handleAll Demo.afternoon w)))%Q
  /\ (0 <= llanoEnergy (state (handleAll Demo.afternoon w)))%Q.
Proof.
  intros w.
  assert (Hpow : Forall (fun smp => (0 <= power smp)%Q) Demo.afternoon).
  { repeat constructor; discriminate. }
  assert (Hclock : clockMonotone None Demo.afternoon).
  { cbn. lia. }
  split; [reflexivity|]. split; [exact Hpow|]. split; [exact Hclock|].
  exact (totals_nonnegative_for_nonnegative_power_and_monotone_clock
           Demo.afternoon w eq_refl Hpow Hclock).
Defined.

(** 17:00 to 17:30 at 1000 W: exactly 0.5 kWh, into the peak total; the
    1500 W reported at 17:30 play no part. *)
Lemma half_hour_at_1000W_is_half_a_kWh :
  let w := Demo.withState Demo.at1700 in
  let s' := state (handleNewPowerMeasurement Demo.sample1730 w) in
  let delta :=
    (1000 * (inject_Z (1710102600000 - 1710100800000) / 3600000) / 1000)%Q in
  lastTimestamp (state w) = Some 1710100800000
  /\ newDayStarted (state w) (isoDay (dateNow Demo.sample1730)) = false
  /\ (picoEnergy s' = (0 + delta)%Q /\ llanoEnergy s' = 0%Q
      \/ picoEnergy s' = 0%Q /\ llanoEnergy s' = (0 + delta)%Q)
  /\ (delta == 1 # 2)%Q
  /\ (picoEnergy s' == 1 # 2)%Q.
Proof.
  intros w s' delta.
  assert (Hsame :
    newDayStarted (state w) (isoDay (dateNow Demo.sample1730)) = false).
  { vm_compute. reflexivity. }
  split; [reflexivity|]. split; [exact Hsame|].
  split; [|split; reflexivity].
  exact (proj1 (delta_is_previous_power_times_elapsed_hours
                  Demo.sample1730 w 1710100800000 eq_refl Hsame)).
Defined.

(** 21:30 to 22:00 at 2000 W: 1.0 kWh, all of it off-peak, since hour 21 is
    outside [17, 21). *)
Lemma half_hour_from_2130_is_offpeak :
  let w := Demo.withState Demo.at2130 in
  let s' := state (handleNewPowerMeasurement Demo.sample2200 w) in
  lastTimestamp (state w) = Some 1710117000000
  /\ newDayStarted (state w) (isoDay (dateNow Demo.sample2200)) = false
  /\ JSDate.getHours LocalTZA 1710117000000 = 21
  /\ picoEnergy s' = 2%Q
  /\ llanoEnergy s' = (3 + energyDelta 2000 1710117000000 1710118800000)%Q
  /\ (llanoEnergy s' == 4)%Q.
Proof.
  intros w s'.
  assert (Hsame :
    newDayStarted (state w) (isoDay (dateNow Demo.sample2200)) = false).
  { vm_compute. reflexivity. }
  assert (Hhour : JSDate.getHours LocalTZA 1710117000000 = 21).
  { vm_compute. reflexivity. }
  destruct (whole_delta_goes_to_bucket_of_start_hour
              Demo.sample2200 w 1710117000000 eq_refl Hsame)
    as [_ Hoff].
  destruct Hoff as [Hpico Hllano]; [rewrite Hhour; lia|].
  split; [reflexivity|]. split; [exact Hsame|]. split; [exact Hhour|].
  split; [exact Hpico|]. split; [exact Hllano|]. reflexivity.
Defined.

(** 16:30 to 17:30 spans the start of the peak window: the whole 1.2 kWh
    still goes to the off-peak total. *)
Example interval_across_1700_is_not_split :
  let s :=
    {| lastTimestamp := Some 1710099000000; lastPower := 1200;
       picoEnergy := 0; llanoEnergy := 0; day := Some "2024-03-10" |} in
  let s' := nextState Demo.sample1730 s in
  picoEnergy s' = 0%Q /\ (llanoEnergy s' == 12 # 10)%Q.
Proof. split; reflexivity. Qed.



(** After the afternoon's three measurements 0.6 kWh of 1.1 kWh are
    off-peak; on the zeroed state the ratio is 0. *)
Lemma indice_after_the_afternoon :
  let w := handleAll Demo.afternoon (Demo.freshWorld None) in
  let s := state w in
  (0 < picoEnergy s + llanoEnergy s)%Q
  /\ indice s = (llanoEnergy s / (picoEnergy s + llanoEnergy s) * 100)%Q
  /\ (indice s == 600 # 11)%Q
  /\ indice_text (document w) = "54.5 %"
  /\ (picoEnergy initialState + llanoEnergy initialState <= 0)%Q
  /\ indice (state (Demo.freshWorld None)) = 0%Q.
Proof.
  intros w s.
  assert (Hpos : (0 < picoEnergy s + llanoEnergy s)%Q) by reflexivity.
  assert (Hzero : (picoEnergy initialState + llanoEnergy initialState <= 0)%Q)
    by discriminate.
  split; [exact Hpos|].
  split; [exact (proj1 (indice_is_offpeak_share_of_positive_total w) Hpos)|].
  split; [reflexivity|]. split; [vm_compute; reflexivity|].
  split; [exact Hzero|].
  exact (proj1 (proj2 (indice_is_offpeak_share_of_positive_total
                         (Demo.freshWorld None))) Hzero).
Defined.

(** With the negative total that feeding back leaves, the denominator is
    not zero, the quotient is 100, and [updateMetrics] reports 0. *)
Lemma indice_is_zero_for_a_negative_total :
  let w := handleAll Demo.feedIn (Demo.freshWorld None) in
  let s := state w in
  let total := (picoEnergy s + llanoEnergy s)%Q in
  ~ (total == 0)%Q
  /\ (llanoEnergy s / total * 100 == 100)%Q
  /\ indice s = 0%Q
  /\ ~ (indice s == llanoEnergy s / total * 100)%Q
  /\ indice_text (document w) = "0.0 %".
Proof.
  intros w s total.
  split; [vm_compute; discriminate|]. split; [reflexivity|].
  split; [reflexivity|]. split; [vm_compute; discriminate|].
  vm_compute. reflexivity.
Qed.



(** Three hours at 100 W, 200 W and 300 W from 16:00 local time: the first
    delta goes to the off-peak total, the other two, in turn, to the peak
    total. *)
Lemma hourly_deltas_go_to_their_buckets :
  let s := Doubles.run64 Cases.hourly Doubles.initialState64 in
  let ivs := Doubles.intervals64 None 0 Cases.hourly in
  Doubles.newDayStarted64 Doubles.initialState64 "2024-03-10" = false
  /\ Forall (fun smp => isoDay (Doubles.dateNow64 smp) = "2024-03-10")
            Cases.hourly
  /\ map fst ivs = [false; true; true]
  /\ Doubles.picoEnergy64 s =
       Doubles.accumulate 0 (Doubles.deltasOf true ivs)
  /\ Doubles.llanoEnergy64 s =
       Doubles.accumulate 0 (Doubles.deltasOf false ivs)
  /\ Permutation (Doubles.deltasOf true ivs ++ Doubles.deltasOf false ivs)
                 (map snd ivs)
  /\ length ivs = 3%nat.
Proof.
  intros s ivs.
  assert (Hday :
    Forall (fun smp => isoDay (Doubles.dateNow64 smp) = "2024-03-10")
           Cases.hourly) by (repeat constructor).
  destruct (each_delta_is_added_once_to_one_bucket
              "2024-03-10" Cases.hourly Doubles.initialState64
              eq_refl Hday)
    as (Hpico & Hllano & Hshare & Hcount).
  split; [reflexivity|]. split; [exact Hday|].
  split; [vm_compute; reflexivity|].
  split; [exact Hpico|]. split; [exact Hllano|]. split; [exact Hshare|].
  exact Hcount.
Defined.

(** In doubles the two totals of those three hours add up to less than the
    three deltas do: added in turn the deltas give another double, and
    their sum as a rational is no double at all. *)
Lemma hourly_totals_are_not_the_sum_of_the_deltas :
  let s := Doubles.run64 Cases.hourly Doubles.initialState64 in
  let total := (Doubles.picoEnergy64 s + Doubles.llanoEnergy64 s)%float in
  let deltas := map snd (Doubles.intervals64 None 0 Cases.hourly) in
  Forall (fun smp => isoDay (Doubles.dateNow64 smp) = "2024-03-10")
         Cases.hourly
  /\ length deltas = 3%nat
  /\ PrimFloat.eqb total (Doubles.accumulate 0 deltas) = false
  /\ PrimFloat.ltb total (Doubles.accumulate 0 deltas) = true
  /\ Doubles.exactValue total = Some (5404319552844595 # 9007199254740992)
  /\ option_map Qred (Doubles.exactSum deltas) =
       Some (21617278211378381 # 36028797018963968)
  /\ ~ (5404319552844595 # 9007199254740992 ==
        21617278211378381 # 36028797018963968)%Q.
Proof.
  intros s total deltas.
  split; [repeat constructor|]. split; [reflexivity|].
  split; [vm_compute; reflexivity|]. split; [vm_compute; reflexivity|].
  split; [vm_compute; reflexivity|]. split; [vm_compute; reflexivity|].
  vm_compute. discriminate.
Qed.

(** A rejected request, between two polls that succeed. *)
Lemma rejected_request_is_skipped :
  let w := Demo.freshWorld None in
  let failed := Demo.pollAt FetchRejected 1710100800000 in
  let later :=
    [Demo.pollAt (JsonResolved (Demo.meterBody (JNum 1000))) 1710100860000] in
  pollFails failed
  /\ pollFails (Demo.pollAt JsonRejected 1710100800000)
  /\ pollFails
       (Demo.pollAt (JsonResolved (JObj {[ "data" :=
          JObj {[ "device_status" := JObj {[ "meters" := JArr [JNull] ]} ]} ]}))
          1710100800000)
  /\ getShellyStatus failed w = Some (log fetchError w)
  /\ state (log fetchError w) = initialState
  /\ console (log fetchError w) = [fetchError]
  /\ option_Forall2 sameApp (polling (failed :: later) w) (polling later w).
Proof.
  intros w failed later.
  destruct (failed_poll_only_logs failed w I)
    as (Hstatus & Hstate & _ & _ & Hconsole & Hlater).
  split; [exact I|]. split; [exact I|]. split; [reflexivity|].
  split; [exact Hstatus|]. split; [exact Hstate|]. split; [exact Hconsole|].
  exact (Hlater later).
Defined.

(** The first measurement after the page has opened. *)
Lemma first_sample_on_fresh_state :
  let w := Demo.freshWorld None in
  lastTimestamp (state w) = None
  /\ newDayStarted (state w) (isoDay (dateNow Demo.sample0010)) = false
  /\ state (handleNewPowerMeasurement Demo.sample0010 w) =
       {| lastTimestamp := Some 1710029400000; lastPower := 450;
          picoEnergy := 0; llanoEnergy := 0; day := Some "2024-03-10" |}.
Proof.
  intros w. split; [reflexivity|]. split; [reflexivity|].
  exact (first_sample_adds_no_energy Demo.sample0010 w eq_refl eq_refl).
Defined.

(** With no previous timestamp the call still writes [day], which on the
    fresh state goes from [null] to the date of the call; and where the
    stored day is an earlier one, it also zeroes the totals. *)
Lemma sample_without_timestamp_writes_day :
  let fresh := Demo.freshWorld None in
  let stale := Demo.withState Demo.staleNoTimestamp in
  lastTimestamp (state fresh) = None
  /\ day (state fresh) = None
  /\ day (state (handleNewPowerMeasurement Demo.sample0010 fresh)) =
       Some "2024-03-10"
  /\ lastTimestamp (state stale) = None
  /\ picoEnergy (state stale) = 1%Q
  /\ picoEnergy (state (handleNewPowerMeasurement Demo.sample0010 stale)) =
       0%Q.
Proof. repeat split. Qed.



(** * Further scenarios *)

(** The measurement of 17:30 over an open store. *)
Lemma measurement_of_1730_is_persisted :
  let w := Demo.withState Demo.at1700 in
  let w' := handleNewPowerMeasurement Demo.sample1730 w in
  denied (localStorage w) = false
  /\ getItem (localStorage w') storageKey =
       Some (Some (JSON_stringify (state w')))
  /\ console w' = []
  /\ pico_text (document w') = "0.500 kWh".
Proof.
  intros w w'.
  destruct (measurement_is_persisted_and_shown Demo.sample1730 w eq_refl)
    as (Hstate & Hget & _ & Hconsole & _).
  split; [reflexivity|]. split; [|split; [exact Hconsole|]].
  - fold w' in Hstate, Hget. rewrite Hstate. exact Hget.
  - vm_compute. reflexivity.
Defined.

(** The same measurement over a store that denies access. *)
Lemma measurement_of_1730_over_a_denied_store :
  let w' := handleNewPowerMeasurement Demo.sample1730 Cases.deniedWorld in
  denied (localStorage Cases.deniedWorld) = true
  /\ (picoEnergy (state w') == 1 # 2)%Q
  /\ localStorage w' = localStorage Cases.deniedWorld
  /\ console w' = [ConsoleWarn "Failed to save state:"]
  /\ pico_text (document w') = "0.500 kWh".
Proof.
  intros w'.
  destruct (measurement_survives_a_denied_store
              Demo.sample1730 Cases.deniedWorld eq_refl)
    as (Hstate & Hstore & Hconsole & _).
  split; [reflexivity|]. split; [reflexivity|].
  split; [exact Hstore|]. split; [exact Hconsole|].
  vm_compute. reflexivity.
Defined.

Lemma indice_of_the_afternoon_is_a_percentage :
  let s := run Demo.afternoon initialState in
  (0 <= picoEnergy s)%Q /\ (0 <= llanoEnergy s)%Q
  /\ (0 <= indice s)%Q /\ (indice s <= 100)%Q.
Proof.
  intros s.
  assert (Hp : (0 <= picoEnergy s)%Q) by (vm_compute; discriminate).
  assert (Hl : (0 <= llanoEnergy s)%Q) by (vm_compute; discriminate).
  split; [exact Hp|]. split; [exact Hl|].
  exact (indice_between_0_and_100 s Hp Hl).
Defined.

(** A reading stamped like the previous one adds nothing. *)
Lemma repeated_timestamp_adds_nothing :
  let w := Demo.withState Demo.at2130 in
  let smp :=
    {| power := 50; now := 1710117000000; dateNow := 1710117000300 |} in
  let s' := state (handleNewPowerMeasurement smp w) in
  lastTimestamp (state w) = Some 1710117000000
  /\ newDayStarted (state w) (isoDay (dateNow smp)) = false
  /\ (picoEnergy s' == 2)%Q /\ (llanoEnergy s' == 3)%Q.
Proof.
  intros w smp s'.
  assert (Hsame : newDayStarted (state w) (isoDay (dateNow smp)) = false)
    by (vm_compute; reflexivity).
  split; [reflexivity|]. split; [exact Hsame|].
  exact (no_energy_without_time_or_power smp w 1710117000000
           eq_refl Hsame (or_introl eq_refl)).
Defined.

Lemma afternoon_totals_only_grow :
  let s := initialState in
  nonnegative s
  /\ newDayStarted s "2024-03-10" = false
  /\ Forall (fun smp => isoDay (dateNow smp) = "2024-03-10") Demo.afternoon
  /\ Forall (fun smp => (0 <= power smp)%Q) Demo.afternoon
  /\ clockMonotone (lastTimestamp s) Demo.afternoon
  /\ (picoEnergy s <= picoEnergy (run Demo.afternoon s))%Q
  /\ (llanoEnergy s <= llanoEnergy (run Demo.afternoon s))%Q.
Proof.
  intros s.
  assert (Hs : nonnegative s) by (repeat split; discriminate).
  assert (Hday :
    Forall (fun smp => isoDay (dateNow smp) = "2024-03-10") Demo.afternoon)
    by (repeat constructor).
  assert (Hpow : Forall (fun smp => (0 <= power smp)%Q) Demo.afternoon)
    by (repeat constructor; discriminate).
  assert (Hclock : clockMonotone (lastTimestamp s) Demo.afternoon)
    by (cbn; lia).
  split; [exact Hs|]. split; [reflexivity|]. split; [exact Hday|].
  split; [exact Hpow|]. split; [exact Hclock|].
  exact (totals_never_decrease_within_a_day
           "2024-03-10" Demo.afternoon s Hs eq_refl Hday Hpow Hclock).
Defined.

(** After 23:50 UTC, the samples of 00:10, 00:40 and 01:10 UTC: the totals
    of the new day do not depend on what the old day left. *)
Lemma totals_of_the_new_day :
  let fresh :=
    {| lastTimestamp := Some 1710029400000; lastPower := 450;
       picoEnergy := 0; llanoEnergy := 0; day := Some "2024-03-10" |} in
  newDayStarted Demo.at2350 (isoDay (dateNow Demo.sample0010)) = true
  /\ newDayStarted Demo.staleNoTimestamp (isoDay (dateNow Demo.sample0010))
     = true
  /\ run (Demo.sample0010 :: Cases.earlyMorning) Demo.at2350 =
     run Cases.earlyMorning fresh
  /\ run (Demo.sample0010 :: Cases.earlyMorning) Demo.staleNoTimestamp =
     run (Demo.sample0010 :: Cases.earlyMorning) Demo.at2350.
Proof.
  intros fresh.
  assert (Hnew :
    newDayStarted Demo.at2350 (isoDay (dateNow Demo.sample0010)) = true)
    by (vm_compute; reflexivity).
  assert (Hother :
    newDayStarted Demo.staleNoTimestamp (isoDay (dateNow Demo.sample0010))
    = true) by (vm_compute; reflexivity).
  destruct (rollover_forgets_what_came_before
              Demo.sample0010 Cases.earlyMorning Demo.at2350 Hnew)
    as [Hrun Hany].
  split; [exact Hnew|]. split; [exact Hother|]. split; [exact Hrun|].
  exact (Hany Demo.staleNoTimestamp Hother).
Defined.

(** The state saved at 17:30 local time comes back when the page is
    reopened at 18:00; it is passed over when the page is reopened at 21:30
    of the same local date, where the UTC date is already the next one, and
    when it is reopened the next day. *)
Lemma state_of_1730_is_restored_at_1800 :
  let host := Cases.codecFor Cases.savedAt1730 in
  let w := Demo.withState Demo.at1700 in
  let w1 := handleNewPowerMeasurement (host := host) Demo.sample1730 w in
  let reopened :=
    {| state := initialState; localStorage := localStorage w1;
       document := Demo.blank; console := [] |} in
  denied (localStorage w) = false
  /\ JSON_stringify (state w1) <> ""
  /\ JSON_parse (JSON_stringify (state w1)) = Some (snapshot (state w1))
  /\ option_map state (loadState (host := host) 1710104400000 reopened) =
       Some Cases.savedAt1730
  /\ localDay (host := host) 1710117000000 =
       localDay (host := host) (dateNow Demo.sample1730)
  /\ option_map state (loadState (host := host) 1710117000000 reopened) =
       Some initialState
  /\ option_map state (loadState (host := host) 1710190800000 reopened) =
       Some initialState.
Proof.
  intros host w w1 reopened.
  assert (Htext : JSON_stringify (state w1) <> "") by discriminate.
  assert (Hcodec :
    JSON_parse (JSON_stringify (state w1)) = Some (snapshot (state w1)))
    by reflexivity.
  split; [reflexivity|]. split; [exact Htext|]. split; [exact Hcodec|].
  split.
  - destruct (saved_state_is_restored_on_the_same_day
                (host := host) Demo.sample1730 w reopened 1710104400000
                eq_refl Htext Hcodec eq_refl)
      as (w' & Hload & Hsame & _).
    rewrite Hload. cbn [option_map]. f_equal. apply Hsame.
    vm_compute. reflexivity.
  - split; [vm_compute; reflexivity|]. split.
    + destruct (saved_state_is_restored_on_the_same_day
                  (host := host) Demo.sample1730 w reopened 1710117000000
                  eq_refl Htext Hcodec eq_refl)
        as (w' & Hload & _ & Hother).
      rewrite Hload. cbn [option_map]. f_equal. apply Hother.
      vm_compute. discriminate.
    + destruct (saved_state_is_restored_on_the_same_day
                  (host := host) Demo.sample1730 w reopened 1710190800000
                  eq_refl Htext Hcodec eq_refl)
        as (w' & Hload & _ & Hother).
      rewrite Hload. cbn [option_map]. f_equal. apply Hother.
      vm_compute. discriminate.
Defined.

(** The snapshot restored at 21:10 local time, with 1.5 kWh and 4 kWh on it,
    and the measurement of 21:40: the stored 800 W since 21:01:40 go to the
    off-peak total, and the peak total is the restored one. *)
Lemma restored_totals_at_2140 :
  let w := Demo.freshWorld (Some "fresh") in
  let w' := setState
              {| lastTimestamp := Some 1710028900000; lastPower := 800;
                 picoEnergy := 3 # 2; llanoEnergy := 4;
                 day := Some "2024-03-10" |} w in
  let after := state (handleNewPowerMeasurement Cases.sample2140 w') in
  let delta := energyDelta 800 1710028900000 1710031200000 in
  loadState 1710029400000 w = Some w'
  /\ state w' <> state w
  /\ isoDay (dateNow Cases.sample2140) = isoDay 1710029400000
  /\ day (state w') = Some "2024-03-10"
  /\ newDayStarted (state w') "2024-03-10" = false
  /\ (delta == 23 # 45)%Q
  /\ picoEnergy after = (3 # 2)%Q
  /\ llanoEnergy after = (4 + delta)%Q.
Proof.
  intros w w' after delta.
  assert (Hload : loadState 1710029400000 w = Some w')
    by (vm_compute; reflexivity).
  assert (Hchanged : state w' <> state w) by discriminate.
  assert (Hday : isoDay (dateNow Cases.sample2140) = isoDay 1710029400000)
    by (vm_compute; reflexivity).
  destruct (restored_totals_survive_the_next_measurement
              1710029400000 w w' Cases.sample2140 Hload Hchanged Hday)
    as (Hdated & Hsame & _ & Hgrown).
  split; [exact Hload|]. split; [exact Hchanged|]. split; [exact Hday|].
  split; [exact Hdated|]. split; [exact Hsame|].
  split; [vm_compute; reflexivity|].
  destruct (Hgrown 1710028900000 eq_refl) as [[Hpico _]|[Hpico Hllano]].
  - exfalso. revert Hpico. vm_compute. discriminate.
  - split; [exact Hpico|exact Hllano].
Defined.

(** Nothing stored: nothing logged.  The text [null]: one warning. *)
Lemma loadState_on_first_run_and_on_null :
  let first := Demo.freshWorld None in
  let nulled := Demo.freshWorld (Some "null") in
  loadState 1710029400000 first = Some first
  /\ console first <> loadWarning :: console first
  /\ loadState 1710029400000 nulled = Some (log loadWarning nulled)
  /\ localStorage (log loadWarning nulled) = localStorage nulled
  /\ state (log loadWarning nulled) = state nulled.
Proof.
  intros first nulled.
  assert (Hfirst : loadState 1710029400000 first = Some first)
    by (vm_compute; reflexivity).
  assert (Hnull :
    loadState 1710029400000 nulled = Some (log loadWarning nulled))
    by (vm_compute; reflexivity).
  destruct (loadState_reads_only_and_warns_on_a_throw _ _ _ Hnull)
    as (Hstore & _ & _ & Hstate & _).
  destruct (loadState_reads_only_and_warns_on_a_throw _ _ _ Hfirst)
    as (_ & _ & Hiff & _).
  split; [exact Hfirst|]. split.
  - intros Hwarned. apply Hiff in Hwarned.
    destruct Hwarned as [Hnone | (stored & Hstored & _)];
      vm_compute in Hnone || vm_compute in Hstored; discriminate.
  - split; [exact Hnull|]. split; [exact Hstore|].
    apply Hstate. reflexivity.
Defined.

(** A first meter that is [null] makes the reading throw; a refusal of the
    cloud does not. *)
Lemma null_first_meter_throws :
  let nullMeter :=
    JObj {[ "data" :=
      JObj {[ "device_status" := JObj {[ "meters" := JArr [JNull] ]} ]} ]} in
  optChain (optChain (optChain (Some nullMeter) "data") "device_status")
           "meters" = Some (JArr [JNull])
  /\ readPower nullMeter = Throw
  /\ readPower Cases.refusal <> Throw.
Proof.
  intros nullMeter.
  assert (Hmeters :
    optChain (optChain (optChain (Some nullMeter) "data") "device_status")
             "meters" = Some (JArr [JNull]))
    by (vm_compute; reflexivity).
  split; [exact Hmeters|]. split.
  - apply readPower_throws_only_on_a_null_first_meter.
    exists []. exact Hmeters.
  - intros Hthrow.
    apply readPower_throws_only_on_a_null_first_meter in Hthrow
      as [rest Hrest].
    vm_compute in Hrest. discriminate Hrest.
Defined.

(** A meter whose power is the empty string reads as 0. *)
Lemma empty_string_power_reads_as_zero :
  readPower (Demo.meterBody (JStr "")) = Normal (JNum 0)
  /\ (JNum 0 = JNum 0 \/ truthy (Some (JNum 0)) = true)
  /\ readPower (Demo.meterBody (JNum (-250))) = Normal (JNum (-250))
  /\ ((-250)%Q = 0%Q \/ ~ (-250 == 0)%Q).
Proof.
  assert (Hempty : readPower (Demo.meterBody (JStr "")) = Normal (JNum 0))
    by (vm_compute; reflexivity).
  assert (Hfeed :
    readPower (Demo.meterBody (JNum (-250))) = Normal (JNum (-250)))
    by (vm_compute; reflexivity).
  split; [exact Hempty|].
  split; [exact (proj1 (readPower_is_zero_or_truthy _ _ Hempty))|].
  split; [exact Hfeed|].
  exact (proj2 (readPower_is_zero_or_truthy _ _ Hfeed) _ eq_refl).
Defined.

(** A refusal of the cloud while 1000 W are running: the half hour since
    17:00 is counted and the stored power drops to 0. *)
Lemma refusal_counts_as_0W :
  let p := Demo.pollAt (JsonResolved Cases.refusal) 1710102600000 in
  let w := Demo.withState Demo.at1700 in
  outcome p = JsonResolved Cases.refusal
  /\ (forall meter0 rest,
        optChain (optChain (optChain (Some Cases.refusal) "data")
                           "device_status") "meters"
        <> Some (JArr (meter0 :: rest)))
  /\ getShellyStatus p w =
       Some (handleNewPowerMeasurement
               {| power := 0; now := 1710102600000;
                  dateNow := 1710102600000 |} w)
  /\ option_map (fun w' => lastPower (state w')) (getShellyStatus p w) =
       Some 0%Q.
Proof.
  intros p w.
  assert (Hnone : forall meter0 rest,
            optChain (optChain (optChain (Some Cases.refusal) "data")
                               "device_status") "meters"
            <> Some (JArr (meter0 :: rest)))
    by (intros meter0 rest; vm_compute; discriminate).
  pose proof (body_without_a_meter_counts_as_0W p w Cases.refusal
                eq_refl Hnone) as Hstatus.
  split; [reflexivity|]. split; [exact Hnone|]. split; [exact Hstatus|].
  rewrite Hstatus. reflexivity.
Defined.

(** Three polls, the first of them rejected, on a first run. *)
Lemma three_polls_two_readings :
  let ps :=
    [ Demo.pollAt FetchRejected 1710099000000;
      Demo.pollAt (JsonResolved (Demo.meterBody (JNum 1000))) 1710100800000;
      Demo.pollAt (JsonResolved Cases.refusal) 1710102600000 ] in
  let smps :=
    [ {| power := 1000; now := 1710100800000; dateNow := 1710100800000 |};
      {| power := 0; now := 1710102600000; dateNow := 1710102600000 |} ] in
  let w := Demo.freshWorld None in
  samplesOf ps = Some smps
  /\ loadState 1710099000000 w = Some w
  /\ (exists w', polling ps w = Some w' /\ state w' = run smps initialState)
  /\ (exists w', init 1710099000000 ps w = Some w'
                 /\ state w' = run smps initialState)
  /\ (picoEnergy (run smps initialState) == 1 # 2)%Q.
Proof.
  intros ps smps w.
  assert (Hsmps : samplesOf ps = Some smps) by (vm_compute; reflexivity).
  assert (Hload : loadState 1710099000000 w = Some w)
    by (vm_compute; reflexivity).
  destruct (polling_handles_the_successful_readings ps smps w Hsmps)
    as [Hpolls Hinit].
  split; [exact Hsmps|]. split; [exact Hload|]. split; [exact Hpolls|].
  split; [exact (Hinit 1710099000000 w Hload) | reflexivity].
Defined.

(** A session with two clicks: the accumulator ends where the three polls
    alone take it, and two alerts were raised. *)
Lemma clicks_between_polls :
  option_Forall2 sameApp
    (fst <$> dispatch Cases.session (Demo.freshWorld None) [])
    (polling (pollsOf Cases.session) (Demo.freshWorld None))
  /\ option_map snd (dispatch Cases.session (Demo.freshWorld None) []) =
       Some ["Error al enviar el comando."; "Dispositivo encendido"].
Proof.
  split.
  - exact (proj1 (commands_leave_the_accumulator_alone
                    Cases.session (Demo.freshWorld None))).
  - vm_compute. reflexivity.
Defined.

(** A key with a space and an ampersand. *)
Lemma ampersand_in_a_key_is_escaped :
  let cfg :=
    {| server := "http://192.168.1.2"; device_id := "d9ab8f";
       auth_key := "a b&c" |} in
  statusUrl cfg =
    "http://192.168.1.2/device/status?device_id=d9ab8f&auth_key=a%20b%26c"
  /\ exists id key cmd : string,
       statusUrl cfg =
         server cfg +:+ "/device/status?device_id=" +:+ id
         +:+ "&auth_key=" +:+ key
       /\ controlUrl cfg "on" =
         server cfg +:+ "/device/relay/control?device_id=" +:+ id
         +:+ "&auth_key=" +:+ key +:+ "&channel=0&turn=" +:+ cmd
       /\ forall c : ascii,
            In c (list_ascii_of_string id) \/ In c (list_ascii_of_string key)
            \/ In c (list_ascii_of_string cmd) ->
            ~ In c ["&"; "="; "?"; "#"; "/"; "+"; " "]%char.
Proof.
  intros cfg. split; [reflexivity|].
  exact (request_urls_keep_their_parameters cfg "on").
Defined.

Lemma shipped_configuration_is_sent_as_it_is :
  forallb uriUnreserved
    (list_ascii_of_string (device_id Cases.SHELLY_CONFIG)) = true
  /\ forallb uriUnreserved
       (list_ascii_of_string (auth_key Cases.SHELLY_CONFIG)) = true
  /\ statusUrl Cases.SHELLY_CONFIG =
       "http://192.168.1.2" +:+ "/device/status?device_id=" +:+ "d9ab8f"
       +:+ "&auth_key=" +:+ "".
Proof.
  split; [reflexivity|]. split; [reflexivity|].
  exact (status_url_of_a_plain_configuration Cases.SHELLY_CONFIG
           eq_refl eq_refl).
Defined.

Lemma on_and_off_have_different_urls :
  controlUrl Cases.SHELLY_CONFIG "on" = controlUrl Cases.SHELLY_CONFIG "on"
  /\ "on" = "on"
  /\ controlUrl Cases.SHELLY_CONFIG "on" <>
     controlUrl Cases.SHELLY_CONFIG "off".
Proof.
  split; [reflexivity|]. split.
  - exact (control_url_tells_commands_apart
             Cases.SHELLY_CONFIG "on" "on" eq_refl).
  - intros Heq. apply control_url_tells_commands_apart in Heq.
    discriminate Heq.
Defined.

(** Activation over the cache of an earlier generation and the current
    one. *)
Lemma old_generation_is_purged :
  let cs := fst (ServiceWorker.install Cases.online Cases.oldGeneration) in
  map fst cs = ["duy-energy-cache-v0"; ServiceWorker.CACHE_NAME]
  /\ map fst (ServiceWorker.activate cs) = [ServiceWorker.CACHE_NAME]
  /\ (forall c, ~ In ("duy-energy-cache-v0", c) (ServiceWorker.activate cs)).
Proof.
  intros cs. split; [vm_compute; reflexivity|].
  split; [vm_compute; reflexivity|].
  intros c Hin.
  apply (proj1 (ServiceWorkerFacts.activate_keeps_only_the_current_cache cs))
    in Hin as [_ Hname].
  discriminate Hname.
Defined.

(** Installed on line, asked off line. *)
Lemma script_is_served_offline :
  let cs := fst (ServiceWorker.install Cases.online Cases.oldGeneration) in
  ServiceWorker.install Cases.online Cases.oldGeneration = (cs, true)
  /\ In "./app.js" ServiceWorker.ASSETS_TO_CACHE
  /\ (exists r,
        Cases.online "./app.js" = Some r
        /\ ServiceWorker.ok r = true
        /\ ServiceWorker.onFetch Cases.offline (ServiceWorker.activate cs)
             "./app.js" = Some r)
  /\ ServiceWorker.onFetch Cases.offline (ServiceWorker.activate cs)
       "./other.js" = None.
Proof.
  intros cs.
  assert (Hin : In "./app.js" ServiceWorker.ASSETS_TO_CACHE)
    by (cbn; auto).
  assert (Hok :
    snd (ServiceWorker.install Cases.online Cases.oldGeneration) = true)
    by (vm_compute; reflexivity).
  assert (Hinstalled :
    ServiceWorker.install Cases.online Cases.oldGeneration = (cs, true))
    by (rewrite <- Hok; apply surjective_pairing).
  split; [exact Hinstalled|]. split; [exact Hin|].
  split; [|vm_compute; reflexivity].
  exact (ServiceWorkerFacts.installed_assets_are_served_offline
           Cases.online Cases.offline Cases.oldGeneration cs
           "./app.js" Hinstalled Hin).
Defined.

(** One icon is missing: the installation is rejected and the script is
    still answered from the old cache only. *)
Lemma missing_icon_rejects_the_installation :
  let installed :=
    ServiceWorker.install Cases.missingIcon Cases.oldGeneration in
  In "./icons/icon-512.png" ServiceWorker.ASSETS_TO_CACHE
  /\ snd installed = false
  /\ ServiceWorker.cachesMatch (fst installed) "./index.html" = None
  /\ ServiceWorker.cachesMatch (fst installed) "./app.js" =
     ServiceWorker.cachesMatch Cases.oldGeneration "./app.js".
Proof.
  intros installed.
  assert (Hin : In "./icons/icon-512.png" ServiceWorker.ASSETS_TO_CACHE)
    by (cbn; auto 10).
  destruct (ServiceWorkerFacts.failed_install_caches_nothing
              Cases.missingIcon Cases.oldGeneration)
    as [Hrejected Hsame].
  { exists "./icons/icon-512.png". split; [exact Hin|].
    right. eexists. split; reflexivity. }
  split; [exact Hin|]. split; [exact Hrejected|].
  split; [|exact (Hsame "./app.js")].
  subst installed. rewrite (Hsame "./index.html"). vm_compute. reflexivity.
Defined.
